(** * ISOILAJ SDI registry: identity keys, upsert reconciliation and the
      unverified-names workflow

    Shallow embedding of [src/app.py] and [src/unverified_caregivers.py].

    - Python [str] values are [string]s whose characters are the code points
      U+0000 .. U+00FF; [str.strip], [str.lower], [str.isdigit] and the UTF-8
      encoder are written out for that range.
    - A pandas DataFrame is the list of its rows in index order.  A handler
      takes the tables [load_data] returned and yields the tables it hands
      to [save_data]; cells are [None], NaN or text, so a table read back
      from the workbook (empty text cells come back as NaN) is covered.
      [Workbook.load_data] is the way back from the saved tables to the
      loaded ones.
    - [hashlib.sha1] is implemented after FIPS 180-4 and checked against the
      standard test vectors below.
    - [os.urandom(16)] and [datetime.now()] are inputs of the handlers. *)

From Stdlib Require Import ZArith Ascii String.
From stdpp Require Import base decidable option list strings pretty gmap.

Local Open Scope string_scope.
Local Open Scope list_scope.
Local Open Scope Z_scope.

(** ** Python string primitives *)

Module Py.

Definition code (c : ascii) : Z := Z.of_N (N_of_ascii c).

(** [str.isspace] on U+0000 .. U+00FF. *)
Definition isspace (c : ascii) : bool :=
  let n := code c in
  ((9 <=? n) && (n <=? 13)) || ((28 <=? n) && (n <=? 32))
  || (n =? 133) || (n =? 160).

(** [str.isdigit] on U+0000 .. U+00FF (superscript one, two, three count). *)
Definition isdigit (c : ascii) : bool :=
  let n := code c in
  ((48 <=? n) && (n <=? 57)) || (n =? 178) || (n =? 179) || (n =? 185).

(** [str.lower] on one character of U+0000 .. U+00FF. *)
Definition lower_char (c : ascii) : ascii :=
  let n := code c in
  if ((65 <=? n) && (n <=? 90))
     || ((192 <=? n) && (n <=? 222) && negb (n =? 215))
  then ascii_of_N (Z.to_N (n + 32)) else c.

Fixpoint lower (s : string) : string :=
  match s with
  | EmptyString => EmptyString
  | String c r => String (lower_char c) (lower r)
  end.

(** [s.lstrip(chars)], with the stripped characters given as a predicate. *)
Fixpoint lstrip_by (p : ascii -> bool) (s : string) : string :=
  match s with
  | EmptyString => EmptyString
  | String c r => if p c then lstrip_by p r else s
  end.

(** [s.rstrip(chars)]. *)
Fixpoint rstrip_by (p : ascii -> bool) (s : string) : string :=
  match s with
  | EmptyString => EmptyString
  | String c r =>
      match rstrip_by p r with
      | EmptyString => if p c then EmptyString else String c EmptyString
      | r' => String c r'
      end
  end.

Definition strip_by (p : ascii -> bool) (s : string) : string :=
  rstrip_by p (lstrip_by p s).

(** Every character of [s] is one that [strip_by p] removes. *)
Fixpoint all_chars (p : ascii -> bool) (s : string) : bool :=
  match s with
  | EmptyString => true
  | String c r => p c && all_chars p r
  end.

(** [s.strip()] *)
Definition strip (s : string) : string := strip_by isspace s.

Definition is_pipe (c : ascii) : bool := code c =? 124.

(** [s.strip("|")] *)
Definition strip_pipes (s : string) : string := strip_by is_pipe s.

(** ["".join(ch for ch in s if ch.isdigit())] *)
Fixpoint digits_of (s : string) : string :=
  match s with
  | EmptyString => EmptyString
  | String c r => if isdigit c then String c (digits_of r) else digits_of r
  end.

(** Truth value of a [str]: non-empty. *)
Definition truthy (s : string) : bool :=
  match s with EmptyString => false | String _ _ => true end.

(** [s[:n]] *)
Fixpoint take (n : nat) (s : string) : string :=
  match n, s with
  | S n', String c r => String c (take n' r)
  | _, _ => EmptyString
  end.

(** [s.encode("utf-8")] for code points below U+0100, bytes as [Z]. *)
Fixpoint encode_utf8 (s : string) : list Z :=
  match s with
  | EmptyString => []
  | String c r =>
      let n := code c in
      if n <? 128 then n :: encode_utf8 r
      else Z.lor 192 (Z.shiftr n 6) :: Z.lor 128 (Z.land n 63) :: encode_utf8 r
  end.

End Py.

(** ** SHA-1 (FIPS 180-4) on byte lists, 32-bit words as [Z] *)

Module Sha1.

Definition mask32 : Z := 4294967295.

Definition add32 (a b : Z) : Z := Z.land (a + b) mask32.

Definition rotl32 (n x : Z) : Z :=
  Z.land (Z.lor (Z.shiftl x n) (Z.shiftr x (32 - n))) mask32.

Definition not32 (x : Z) : Z := Z.lxor x mask32.

(** Padding: 0x80, zero bytes up to 56 mod 64, then the bit length on
    eight big-endian bytes. *)
Definition be_bytes (n : nat) (v : Z) : list Z :=
  map (fun i : nat => Z.land (Z.shiftr v (8 * Z.of_nat (n - 1 - i))) 255) (seq 0 n).

Definition pad (msg : list Z) : list Z :=
  let len := Z.of_nat (length msg) in
  let zeros := Z.to_nat ((55 - len) mod 64) in
  (msg ++ 128 :: repeat 0 zeros ++ be_bytes 8 (8 * len))%list.

Fixpoint words_of (fuel : nat) (bs : list Z) : list Z :=
  match fuel, bs with
  | S f, b0 :: b1 :: b2 :: b3 :: r =>
      Z.lor (Z.shiftl b0 24) (Z.lor (Z.shiftl b1 16) (Z.lor (Z.shiftl b2 8) b3))
      :: words_of f r
  | _, _ => []
  end.

Definition words (bs : list Z) : list Z := words_of (length bs) bs.

Definition nthw (l : list Z) (i : nat) : Z := nth i l 0.

(** Message schedule: the list holds W[0..t-1]; extend it to 80 words. *)
Fixpoint schedule (n : nat) (w : list Z) : list Z :=
  match n with
  | O => w
  | S n' =>
      let t := length w in
      let x := Z.lxor (Z.lxor (nthw w (t - 3)) (nthw w (t - 8)))
                      (Z.lxor (nthw w (t - 14)) (nthw w (t - 16))) in
      schedule n' (w ++ [rotl32 1 x])%list
  end.

Definition f_t (t : nat) (b c d : Z) : Z :=
  if (t <? 20)%nat then Z.lor (Z.land b c) (Z.land (not32 b) d)
  else if (t <? 40)%nat then Z.lxor (Z.lxor b c) d
  else if (t <? 60)%nat then
    Z.lor (Z.lor (Z.land b c) (Z.land b d)) (Z.land c d)
  else Z.lxor (Z.lxor b c) d.

Definition k_t (t : nat) : Z :=
  if (t <? 20)%nat then 1518500249
  else if (t <? 40)%nat then 1859775393
  else if (t <? 60)%nat then 2400959708
  else 3395469782.

Record regs := Regs { ra : Z; rb : Z; rc : Z; rd : Z; re : Z }.

Definition round (t : nat) (wt : Z) (r : regs) : regs :=
  let tmp :=
    add32 (add32 (add32 (add32 (rotl32 5 (ra r)) (f_t t (rb r) (rc r) (rd r)))
                        (re r)) (k_t t)) wt in
  Regs tmp (ra r) (rotl32 30 (rb r)) (rc r) (rd r).

Fixpoint rounds (t : nat) (w : list Z) (r : regs) : regs :=
  match w with
  | [] => r
  | wt :: w' => rounds (S t) w' (round t wt r)
  end.

Definition compress (h : regs) (block : list Z) : regs :=
  let r := rounds 0 (schedule 64 block) h in
  Regs (add32 (ra h) (ra r)) (add32 (rb h) (rb r)) (add32 (rc h) (rc r))
       (add32 (rd h) (rd r)) (add32 (re h) (re r)).

Fixpoint blocks (fuel : nat) (ws : list Z) (h : regs) : regs :=
  match fuel, ws with
  | S f, _ :: _ => blocks f (drop 16 ws) (compress h (take 16 ws))
  | _, _ => h
  end.

Definition init : regs :=
  Regs 1732584193 4023233417 2562383102 271733878 3285377520.

Definition digest (msg : list Z) : regs :=
  let ws := words (pad msg) in blocks (length ws) ws init.

Definition hex_digit (v : Z) : ascii :=
  if v <? 10 then ascii_of_N (Z.to_N (48 + v)) else ascii_of_N (Z.to_N (87 + v)).

Definition hex_word (w : Z) : string :=
  string_of_list_ascii
    (map (fun i : nat => hex_digit (Z.land (Z.shiftr w (4 * Z.of_nat (7 - i))) 15))
         (seq 0 8)).

(** [sha1(msg).hexdigest()] *)
Definition hexdigest (msg : list Z) : string :=
  let r := digest msg in
  hex_word (ra r) +:+ hex_word (rb r) +:+ hex_word (rc r) +:+ hex_word (rd r)
  +:+ hex_word (re r).

End Sha1.

(** ** DataFrame cells *)

(** A cell read from a frame row: [None], the float NaN of an empty
    spreadsheet cell, or text. *)
Inductive cell := CNone | CNaN | CStr (s : string).

Module Cell.

(** [pd.isna(c)] *)
Definition isna (c : cell) : bool :=
  match c with CStr _ => false | _ => true end.

(** Python truth value: [None] and [""] are false, NaN is true. *)
Definition truthy (c : cell) : bool :=
  match c with CNone => false | CNaN => true | CStr s => Py.truthy s end.

(** [c or ""] *)
Definition or_empty (c : cell) : cell := if truthy c then c else CStr "".

(** [str(c)] *)
Definition str (c : cell) : string :=
  match c with CNone => "None" | CNaN => "nan" | CStr s => s end.

(** [str(c or "").strip()] *)
Definition text (c : cell) : string := Py.strip (str (or_empty c)).

(** [pd.isna(c) or str(c).strip() == ""] *)
Definition blank (c : cell) : bool :=
  isna c || negb (Py.truthy (Py.strip (str c))).

(** [column.fillna("").astype(str)] on a text column *)
Definition fillna_str (c : cell) : cell :=
  match c with CStr s => CStr s | _ => CStr "" end.

(** [s != c] and [c == s] for a [str] s *)
Definition ne_str (c : cell) (s : string) : bool :=
  match c with CStr t => negb (String.eqb t s) | _ => true end.

Definition eq_str (c : cell) (s : string) : bool :=
  match c with CStr t => String.eqb t s | _ => false end.

End Cell.

(** ** The two tables ([CAREGIVER_COLS], [CHILD_COLS]) *)

Record date := Date { year : Z; month : Z; day : Z }.

Record caregiver := Caregiver {
  caregiver_key : string;
  caregiver_name : cell;
  gender : cell;
  profession : cell;
  date_of_birth : option date;
  age : option Z;
  phone_number : cell;
  address : cell;
  zonal_leader : cell;
  bank : cell;
  account_number : cell;
  number_of_kids : option Z;
  last_updated : cell
}.

(** The child columns [caregiver_key], [caregiver_name] and [last_updated]
    carry the prefix [ch_] to tell them from the caregiver columns. *)
Record child := Child {
  ch_caregiver_key : string;
  ch_caregiver_name : cell;
  child_name : cell;
  child_gender : cell;
  child_phone_number : cell;
  child_age : option Z;
  child_date_of_birth : option date;
  child_education_level : cell;
  child_school_name : cell;
  child_class_level : cell;
  child_profession : cell;
  ch_last_updated : cell
}.

(** A row of the children data editor (the nine editable columns). *)
Record child_input := ChildInput {
  in_child_name : cell;
  in_child_gender : cell;
  in_child_phone_number : cell;
  in_child_age : option Z;
  in_child_date_of_birth : option date;
  in_child_education_level : cell;
  in_child_school_name : cell;
  in_child_class_level : cell;
  in_child_profession : cell
}.

(** What a submit handler leaves behind: the tables handed to [save_data],
    a validation stop ([st.stop()], nothing written), an uncaught
    exception (nothing written), or nothing at all because the form was
    not rendered. *)
Inductive outcome :=
  | Saved (cg_df : list caregiver) (ch_df : list child)
  | Stopped (msg : string)
  | Raised (exn : string)
  | NotShown.

(** ** Identity service *)

(** [stable_key(name, phone)]; [urandom] is the value of [os.urandom(16)]. *)
Definition stable_key (urandom : list Z) (name phone : string) : string :=
  let name := Py.lower (Py.strip name) in
  let phone := Py.digits_of phone in
  let raw := name +:+ "|" +:+ phone in
  if Py.truthy (Py.strip_pipes raw)
  then Py.take 12 (Sha1.hexdigest (Py.encode_utf8 raw))
  else Py.take 12 (Sha1.hexdigest urandom).

(** [validate_phone_number(phone)]: accepts anything. *)
Definition validate_phone_number (phone : string) : bool := true.

(** ** Reconciliation: the "Save / Update Caregiver" form *)

(** The widgets of the form.  [edited] lists the rows of the frame the
    children editor returned, in order; [edited_label i] is the index label
    of its [i]-th row ([i] itself as long as no row was deleted in the
    editor). *)
Record caregiver_form := CaregiverForm {
  c_name : string;
  c_dob : option date;
  c_age : Z;
  c_gender : string;
  c_prof : string;
  c_phone : string;
  c_address : string;
  c_zonal_leader : string;
  c_bank : string;
  c_account_number : string;
  c_numkids : Z;
  edited : list child_input;
  edited_label : nat → nat
}.

(** [s.strip() if s else ""] *)
Definition strip_if (s : string) : string :=
  if Py.truthy s then Py.strip s else "".

(** The validation loop: a row with no name but some other field filled. *)
Definition missing_child_name (r : child_input) : bool :=
  let name := Cell.text (in_child_name r) in
  let phone := Cell.text (in_child_phone_number r) in
  negb (Py.truthy name)
  && (Py.truthy phone
      || bool_decide (is_Some (in_child_age r))
      || bool_decide (is_Some (in_child_date_of_birth r))
      || Cell.truthy (in_child_education_level r)
      || Cell.truthy (in_child_profession r)).

Definition invalid_child_phone (r : child_input) : bool :=
  let phone := Cell.text (in_child_phone_number r) in
  Py.truthy phone && negb (validate_phone_number phone).

(** The loop that prepares [children_rows]: rows without a name are
    skipped, a blank phone is replaced by the caregiver's. *)
Definition new_child_row (key now : string) (f : caregiver_form)
    (r : child_input) : option child :=
  let name := Cell.text (in_child_name r) in
  if negb (Py.truthy name) then None
  else
    let child_phone :=
      if Cell.blank (in_child_phone_number r) then Py.strip (c_phone f)
      else Py.strip (Cell.str (in_child_phone_number r)) in
    Some {| ch_caregiver_key := key;
            ch_caregiver_name := CStr (Py.strip (c_name f));
            child_name := CStr name;
            child_gender := CStr (Cell.text (in_child_gender r));
            child_phone_number := CStr child_phone;
            child_age := in_child_age r;
            child_date_of_birth := in_child_date_of_birth r;
            child_education_level := CStr (Cell.text (in_child_education_level r));
            child_school_name := CStr (Cell.text (in_child_school_name r));
            child_class_level := CStr (Cell.text (in_child_class_level r));
            child_profession := CStr (Cell.text (in_child_profession r));
            ch_last_updated := CStr now |}.

Definition new_caregiver_row (key now : string) (f : caregiver_form) : caregiver :=
  {| caregiver_key := key;
     caregiver_name := CStr (Py.strip (c_name f));
     gender := CStr (c_gender f);
     profession := CStr (Py.strip (c_prof f));
     date_of_birth := c_dob f;
     age := if 0 <? c_age f then Some (c_age f) else None;
     phone_number := CStr (Py.strip (c_phone f));
     address := CStr (strip_if (c_address f));
     zonal_leader := CStr (strip_if (c_zonal_leader f));
     bank := CStr (strip_if (c_bank f));
     account_number := CStr (strip_if (c_account_number f));
     number_of_kids := Some (c_numkids f);
     last_updated := CStr now |}.

(** The upsert proper (lines after the validation): remove the caregiver
    row and the child rows of the key, append the new ones. *)
Definition upsert_caregiver (urandom : list Z) (now : string)
    (cg_df : list caregiver) (ch_df : list child) (f : caregiver_form)
    : list caregiver * list child :=
  let key := stable_key urandom (c_name f) (c_phone f) in
  let new_row := new_caregiver_row key now f in
  let cg_df := filter (λ r, caregiver_key r ≠ key) cg_df in
  let cg_df := cg_df ++ [new_row] in
  let children_rows := omap (new_child_row key now f) (edited f) in
  let ch_df := filter (λ r, ch_caregiver_key r ≠ key) ch_df in
  let ch_df :=
    match children_rows with [] => ch_df | _ => ch_df ++ children_rows end in
  (cg_df, ch_df).

(** [edited.iterrows()]: the rows with their index labels. *)
Definition iterrows (label : nat → nat) (rows : list child_input)
    : list (nat * child_input) :=
  imap (λ i r, (label i, r)) rows.

(** [f"Row {i+1}"] *)
Definition row_label (i : nat) : string := "Row " +:+ pretty (S i).

(** The two lists the validation loop collects. *)
Definition missing_child_names (label : nat → nat) (rows : list child_input)
    : list string :=
  (λ ir, row_label ir.1)
    <$> filter (λ ir, missing_child_name ir.2 = true) (iterrows label rows).

Definition invalid_child_phones (label : nat → nat) (rows : list child_input)
    : list string :=
  (λ ir, let name := Cell.text (in_child_name ir.2) in
         row_label ir.1 +:+ ": " +:+ (if Py.truthy name then name else "Unnamed"))
    <$> filter (λ ir, invalid_child_phone ir.2 = true) (iterrows label rows).

(** [if submitted:] of the caregiver form; [Stopped msg] is
    [st.error(msg); st.stop()]. *)
Definition caregiver_form_submitted (urandom : list Z) (now : string)
    (cg_df : list caregiver) (ch_df : list child) (f : caregiver_form) : outcome :=
  if negb (Py.truthy (c_name f)) then Stopped "Caregiver Name is required."
  else
    match missing_child_names (edited_label f) (edited f) with
    | (_ :: _) as names =>
        Stopped ("Child name is required in: " +:+ String.concat ", " names)
    | [] =>
        match invalid_child_phones (edited_label f) (edited f) with
        | (_ :: _) as rows =>
            Stopped ("Invalid phone number format for: " +:+ String.concat ", " rows)
        | [] =>
            let '(cg, ch) := upsert_caregiver urandom now cg_df ch_df f in
            Saved cg ch
        end
    end.

(** ** Reconciliation: the "Edit Caregiver" tab *)

Record edit_form := EditForm {
  edit_name : string;
  edit_dob : option date;
  edit_age : Z;
  edit_gender : string;
  edit_prof : string;
  edit_phone : string;
  edit_address : string;
  edit_zonal_leader : string;
  edit_bank : string;
  edit_account_number : string;
  edit_numkids : Z
}.

(** [children_edit_data]: the editor is pre-filled with the caregiver's
    child rows, five text columns passed through [fillna("").astype(str)]. *)
Definition children_edit_data (caregiver_children : list child) : list child_input :=
  (λ c, {| in_child_name := child_name c;
           in_child_gender := Cell.fillna_str (child_gender c);
           in_child_phone_number := Cell.fillna_str (child_phone_number c);
           in_child_age := child_age c;
           in_child_date_of_birth := child_date_of_birth c;
           in_child_education_level := child_education_level c;
           in_child_school_name := Cell.fillna_str (child_school_name c);
           in_child_class_level := Cell.fillna_str (child_class_level c);
           in_child_profession := Cell.fillna_str (child_profession c) |})
  <$> caregiver_children.

(** The children loop of the update handler: the phone is taken from the
    row as it is. *)
Definition updated_child_row (new_key now : string) (f : edit_form)
    (r : child_input) : option child :=
  let name := Cell.text (in_child_name r) in
  if negb (Py.truthy name) then None
  else
    let child_phone := Cell.text (in_child_phone_number r) in
    Some {| ch_caregiver_key := new_key;
            ch_caregiver_name := CStr (Py.strip (edit_name f));
            child_name := CStr name;
            child_gender := CStr (Cell.text (in_child_gender r));
            child_phone_number := CStr child_phone;
            child_age := in_child_age r;
            child_date_of_birth := in_child_date_of_birth r;
            child_education_level := CStr (Cell.text (in_child_education_level r));
            child_school_name := CStr (Cell.text (in_child_school_name r));
            child_class_level := CStr (Cell.text (in_child_class_level r));
            child_profession := CStr (Cell.text (in_child_profession r));
            ch_last_updated := CStr now |}.

Definition updated_caregiver (new_key now : string) (f : edit_form) : caregiver :=
  {| caregiver_key := new_key;
     caregiver_name := CStr (Py.strip (edit_name f));
     gender := CStr (edit_gender f);
     profession := CStr (Py.strip (edit_prof f));
     date_of_birth := edit_dob f;
     age := Some (edit_age f);
     phone_number := CStr (Py.strip (edit_phone f));
     address := CStr (strip_if (edit_address f));
     zonal_leader := CStr (Py.strip (edit_zonal_leader f));
     bank := CStr (strip_if (edit_bank f));
     account_number := CStr (strip_if (edit_account_number f));
     number_of_kids := Some (edit_numkids f);
     last_updated := CStr now |}.

(** [if update_submitted:] once the editor contents are known. *)
Definition apply_update (urandom : list Z) (now : string)
    (cg_df : list caregiver) (ch_df : list child)
    (caregiver_data : caregiver) (f : edit_form)
    (edited_children : list child_input) : list caregiver * list child :=
  let old_key := caregiver_key caregiver_data in
  let '(new_key, cg_df, ch_df) :=
    if Cell.ne_str (caregiver_name caregiver_data) (edit_name f)
       || Cell.ne_str (phone_number caregiver_data) (edit_phone f)
    then (stable_key urandom (edit_name f) (edit_phone f),
          filter (λ r, caregiver_key r ≠ old_key) cg_df,
          filter (λ r, ch_caregiver_key r ≠ old_key) ch_df)
    else (old_key, filter (λ r, caregiver_key r ≠ old_key) cg_df, ch_df) in
  let cg_df := cg_df ++ [updated_caregiver new_key now f] in
  let children_rows := omap (updated_child_row new_key now f) edited_children in
  let ch_df :=
    match children_rows with [] => ch_df | _ => ch_df ++ children_rows end in
  (cg_df, ch_df).

(** The edit tab from the selection to the save.  [user] is what the
    person at the data editor does to the pre-filled rows.  The editor,
    and with it the variable [edited_children], exists only when the
    caregiver has a child row: the [else] that shows an empty template
    belongs to the inner of the two nested [if len(caregiver_children) > 0].
    Of the phone message only the fixed part is kept (the list of rows
    after it is left out); [validate_phone_number] accepts everything, so
    the branch is never taken. *)
Definition update_submitted (urandom : list Z) (now : string)
    (cg_df : list caregiver) (ch_df : list child)
    (selected_caregiver : string) (f : edit_form)
    (user : list child_input → list child_input) : outcome :=
  if negb (Py.truthy selected_caregiver) then NotShown else
  match filter (λ r, Cell.eq_str (caregiver_name r) selected_caregiver = true) cg_df with
  | [] => Raised "IndexError"
  | caregiver_data :: _ =>
      let caregiver_children :=
        filter (λ r, ch_caregiver_key r = caregiver_key caregiver_data) ch_df in
      let edited_children :=
        match caregiver_children with
        | [] => None
        | _ => Some (user (children_edit_data caregiver_children))
        end in
      if negb (Py.truthy (edit_name f)) then Stopped "Caregiver Name is required."
      else
        match edited_children with
        | None => Raised "NameError"
        | Some edited_children =>
            if existsb invalid_child_phone edited_children
            then Stopped "Invalid phone number format"
            else
              let '(cg, ch) :=
                apply_update urandom now cg_df ch_df caregiver_data f edited_children in
              Saved cg ch
        end
  end.

(** ** Caregiver-shaped import ("Confirm Import", CSV and Excel branches;
       the two branches have the same text) *)

Record import_row := ImportRow {
  i_caregiver_name : cell;
  i_phone_number : cell;
  i_gender : cell;
  i_profession : cell;
  i_date_of_birth : option date;
  i_age : option Z;
  i_address : cell;
  i_zonal_leader : cell;
  i_bank : cell;
  i_account_number : cell;
  i_number_of_kids : option Z
}.

(** One turn of the loop over [import_df.iterrows()], on the two tables
    in scope; [urandom] and [now] are the readings taken in this turn. *)
Definition import_caregiver_row (urandom : list Z) (now : string)
    (tables : list caregiver * list child) (row : import_row)
    : list caregiver * list child :=
  let '(cg_df, ch_df) := tables in
  let name := Cell.text (i_caregiver_name row) in
  let phone := Cell.text (i_phone_number row) in
  if negb (Py.truthy name) then (cg_df, ch_df)
  else
    let key := stable_key urandom name phone in
    let new_row :=
      {| caregiver_key := key;
         caregiver_name := CStr name;
         gender := CStr (Cell.text (i_gender row));
         profession := CStr (Cell.text (i_profession row));
         date_of_birth := i_date_of_birth row;
         age := i_age row;
         phone_number := CStr phone;
         address := CStr (Cell.text (i_address row));
         zonal_leader := CStr (Cell.text (i_zonal_leader row));
         bank := CStr (Cell.text (i_bank row));
         account_number := CStr (Cell.text (i_account_number row));
         number_of_kids := i_number_of_kids row;
         last_updated := CStr now |} in
    let cg_df := filter (λ r, caregiver_key r ≠ key) cg_df in
    let cg_df := cg_df ++ [new_row] in
    (cg_df, ch_df).

(** The loop; [urandom i] and [utcnow i] are the readings of turn [i]. *)
Fixpoint import_caregiver_rows (urandom : nat → list Z) (utcnow : nat → string)
    (i : nat) (tables : list caregiver * list child) (rows : list import_row)
    : list caregiver * list child :=
  match rows with
  | [] => tables
  | row :: rows' =>
      import_caregiver_rows urandom utcnow (S i)
        (import_caregiver_row (urandom i) (utcnow i) tables row) rows'
  end.

(** [if is_caregiver_data:] ... [save_data(cg_df, ch_df)]: the tables
    handed to [save_data]. *)
Definition import_caregiver_data (urandom : nat → list Z) (utcnow : nat → string)
    (cg_df : list caregiver) (ch_df : list child) (import_df : list import_row)
    : list caregiver * list child :=
  import_caregiver_rows urandom utcnow 0 (cg_df, ch_df) import_df.

(** ** Migration of child phone numbers *)

(** [dict(zip(cg_df['caregiver_key'], cg_df['phone_number']))]: a later row
    overrides an earlier one with the same key. *)
Definition caregiver_phones (cg_df : list caregiver) : gmap string cell :=
  foldl (λ m r, <[caregiver_key r := phone_number r]> m) ∅ cg_df.

Definition set_child_phone (row : child) (phone : cell) : child :=
  {| ch_caregiver_key := ch_caregiver_key row;
     ch_caregiver_name := ch_caregiver_name row;
     child_name := child_name row;
     child_gender := child_gender row;
     child_phone_number := phone;
     child_age := child_age row;
     child_date_of_birth := child_date_of_birth row;
     child_education_level := child_education_level row;
     child_school_name := child_school_name row;
     child_class_level := child_class_level row;
     child_profession := child_profession row;
     ch_last_updated := ch_last_updated row |}.

(** The loop over [ch_df.iterrows()], threading [updated_count]. *)
Fixpoint migrate_rows (phones : gmap string cell) (rows : list child)
    (updated_count : nat) : list child * nat :=
  match rows with
  | [] => ([], updated_count)
  | row :: rows' =>
      let child_phone := child_phone_number row in
      let caregiver_key := ch_caregiver_key row in
      let '(row, updated_count) :=
        if Cell.blank child_phone then
          match phones !! caregiver_key with
          | Some caregiver_phone =>
              if Cell.truthy caregiver_phone
                 && Py.truthy (Py.strip (Cell.str caregiver_phone))
              then (set_child_phone row (CStr (Py.strip (Cell.str caregiver_phone))),
                    S updated_count)
              else (row, updated_count)
          | None => (row, updated_count)
          end
        else (row, updated_count) in
      let '(rest, updated_count) := migrate_rows phones rows' updated_count in
      (row :: rest, updated_count)
  end.

(** The body of [migrate_child_phone_numbers()] below its first line: from
    the tables [load_data()] returned to the tables in memory at the end
    (handed to [save_data] only when a row changed) and the returned count.
    The call as the application makes it, reading the workbook first, is
    [Workbook.migrate_child_phone_numbers]. *)
Definition migrate_child_phone_numbers (cg_df : list caregiver) (ch_df : list child)
    : (list caregiver * list child) * nat :=
  let '(ch_new, updated_count) := migrate_rows (caregiver_phones cg_df) ch_df 0 in
  if (0 <? updated_count)%nat then ((cg_df, ch_new), updated_count)
  else ((cg_df, ch_df), 0%nat).

(** ** The workbook between two runs *)

(** [save_data] writes the two tables with [to_excel], [load_data] reads
    them with [pd.read_excel].  A workbook is given by the tables last
    written to it.  [None] and NaN are written as empty cells; an empty
    cell, and a text cell holding one of the markers pandas takes for a
    missing value, is read as NaN.  Text that parses as a number is read as
    a number, which [cell] does not have: the round trip is the one of text
    with a character that no number has, and of keys with a letter. *)
Module Workbook.

(** [pandas._libs.parsers.STR_NA_VALUES] *)
Definition na_values : list string :=
  [""; "#N/A"; "#N/A N/A"; "#NA"; "-1.#IND"; "-1.#QNAN"; "-NaN"; "-nan";
   "1.#IND"; "1.#QNAN"; "<NA>"; "N/A"; "NA"; "NULL"; "NaN"; "None"; "n/a";
   "nan"; "null"].

(** A cell written by [to_excel] and read by [read_excel]. *)
Definition read_cell (c : cell) : cell :=
  match c with
  | CStr s => if bool_decide (s ∈ na_values) then CNaN else CStr s
  | CNone | CNaN => CNaN
  end.

Definition load_caregiver (r : caregiver) : caregiver :=
  {| caregiver_key := caregiver_key r;
     caregiver_name := read_cell (caregiver_name r);
     gender := read_cell (gender r);
     profession := read_cell (profession r);
     date_of_birth := date_of_birth r;
     age := age r;
     phone_number := read_cell (phone_number r);
     address := read_cell (address r);
     zonal_leader := read_cell (zonal_leader r);
     bank := read_cell (bank r);
     account_number := read_cell (account_number r);
     number_of_kids := number_of_kids r;
     last_updated := read_cell (last_updated r) |}.

Definition load_child (c : child) : child :=
  {| ch_caregiver_key := ch_caregiver_key c;
     ch_caregiver_name := read_cell (ch_caregiver_name c);
     child_name := read_cell (child_name c);
     child_gender := read_cell (child_gender c);
     child_phone_number := read_cell (child_phone_number c);
     child_age := child_age c;
     child_date_of_birth := child_date_of_birth c;
     child_education_level := read_cell (child_education_level c);
     child_school_name := read_cell (child_school_name c);
     child_class_level := read_cell (child_class_level c);
     child_profession := read_cell (child_profession c);
     ch_last_updated := read_cell (ch_last_updated c) |}.

(** [load_data()] on the workbook [wb]. *)
Definition load_data (wb : list caregiver * list child)
    : list caregiver * list child :=
  (load_caregiver <$> wb.1, load_child <$> wb.2).

(** [migrate_child_phone_numbers()]: the workbook after the call and the
    count it returns.  The workbook is rewritten, from the tables in
    memory, only when a row changed. *)
Definition migrate_child_phone_numbers (wb : list caregiver * list child)
    : (list caregiver * list child) * nat :=
  let '(cg_df, ch_df) := load_data wb in
  let '(saved, updated_count) := migrate_child_phone_numbers cg_df ch_df in
  if (0 <? updated_count)%nat then (saved, updated_count) else (wb, 0%nat).

(** A caregiver phone that the migration can copy without harm: it is not
    copied at all, or the text copied is not a marker of a missing value. *)
Definition phone_survives (caregiver_phone : cell) : bool :=
  negb (Cell.truthy caregiver_phone
        && Py.truthy (Py.strip (Cell.str caregiver_phone)))
  || negb (bool_decide (Py.strip (Cell.str caregiver_phone) ∈ na_values)).

End Workbook.

(** ** Unverified names (src/unverified_caregivers.py) *)

Module Unverified.

Inductive status := pending | verified | rejected.

#[global] Instance status_eq_dec : EqDecision status.
Proof. solve_decision. Defined.

Record record := Record_ {
  unverified_id : string;
  name : string;
  status_of : status;
  upload_date : string;
  notes : string;
  verified_date : option string;
  verified_by : option string
}.

(** [generate_unverified_id(name)]; [timestamp] is the reading of
    [datetime.now().isoformat()] in the call. *)
Definition generate_unverified_id (timestamp : string) (name : string) : string :=
  let raw := Py.lower (Py.strip name) +:+ "|" +:+ timestamp in
  Py.take 12 (Sha1.hexdigest (Py.encode_utf8 raw)).

(** [Series.dropna().unique()]: values in order of first appearance. *)
Fixpoint unique_from (seen : list string) (l : list string) : list string :=
  match l with
  | [] => []
  | x :: r =>
      if bool_decide (x ∈ seen) then unique_from seen r
      else x :: unique_from (x :: seen) r
  end.

Definition dropna (column : list cell) : list string :=
  omap (λ c, match c with CStr s => Some s | _ => None end) column.

Definition names_preview (column : list cell) : list string :=
  unique_from [] (dropna column).

(** [not unverified_df[unverified_df['name'].str.lower() == clean_name.lower()].empty] *)
Definition name_exists (unverified_df : list record) (clean_name : string) : bool :=
  existsb (λ r, String.eqb (Py.lower (name r)) (Py.lower clean_name)) unverified_df.

(** The loop that collects [new_records]; every candidate is compared with
    [unverified_df] as it was loaded.  [clock i] is the timestamp read by
    the [i]-th call of [generate_unverified_id]. *)
Fixpoint collect_new_records (clock : nat → string) (now file_name : string)
    (unverified_df : list record) (i : nat) (names : list string) : list record :=
  match names with
  | [] => []
  | name0 :: names' =>
      if Py.truthy name0 && Py.truthy (Py.strip name0) then
        let clean_name := Py.strip name0 in
        if name_exists unverified_df clean_name
        then collect_new_records clock now file_name unverified_df i names'
        else
          {| unverified_id := generate_unverified_id (clock i) clean_name;
             name := clean_name;
             status_of := pending;
             upload_date := now;
             notes := "Uploaded from " +:+ file_name;
             verified_date := None;
             verified_by := None |}
          :: collect_new_records clock now file_name unverified_df (S i) names'
      else collect_new_records clock now file_name unverified_df i names'
  end.

(** "Add to Unverified List": the stored collection afterwards and the
    number of records added. *)
Definition add_to_unverified_list (clock : nat → string) (now file_name : string)
    (unverified_df : list record) (column : list cell) : list record * nat :=
  let new_records :=
    collect_new_records clock now file_name unverified_df 0 (names_preview column) in
  match new_records with
  | [] => (unverified_df, 0%nat)
  | _ => (unverified_df ++ new_records, length new_records)
  end.

(** "Save Changes": every row of the editor replaces the first stored row
    that has its id. *)
Definition save_changes (unverified_df : list record) (edited_df : list record)
    : list record :=
  foldl (λ df row,
           match list_find (λ r, unverified_id r = unverified_id row) df with
           | Some (original_idx, _) => <[original_idx := row]> df
           | None => df
           end)
        unverified_df edited_df.

Definition decide_row (r : record) (s : status) (now by_ : string) : record :=
  {| unverified_id := unverified_id r;
     name := name r;
     status_of := s;
     upload_date := upload_date r;
     notes := notes r;
     verified_date := Some now;
     verified_by := Some by_ |}.

(** The verify tab shows a Verify and a Reject button for every row of
    [pending_df]; [None] when row [idx] has no buttons. *)
Definition press (s : status) (unverified_df : list record) (idx : nat)
    (now : string) : option (list record) :=
  match unverified_df !! idx with
  | Some r =>
      if bool_decide (status_of r = pending)
      then Some (<[idx := decide_row r s now "Manual Verification"]> unverified_df)
      else None
  | None => None
  end.

Definition verify_button := press verified.
Definition reject_button := press rejected.

(** The manage tab's filter: a status or "All", and a name search whose
    matcher ([str.contains]) is taken as given. *)
Definition filtered (status_filter : option status) (search : string → bool)
    (r : record) : bool :=
  match status_filter with
  | Some s => bool_decide (status_of r = s)
  | None => true
  end && search (name r).

(** "Mark All Filtered as Verified" / "... as Rejected". *)
Definition mark_all_filtered (s : status) (status_filter : option status)
    (search : string → bool) (now : string) (unverified_df : list record)
    : list record :=
  (λ r, if filtered status_filter search r
        then decide_row r s now "Bulk Action" else r) <$> unverified_df.

(** The operations of the workflow that write the collection. *)
Inductive operation :=
  | SaveChanges (edited_df : list record)
  | Verify (idx : nat) (now : string)
  | Reject (idx : nat) (now : string)
  | MarkAllFiltered (s : status) (status_filter : option status)
                    (search : string → bool) (now : string).

Definition run (op : operation) (unverified_df : list record) : list record :=
  match op with
  | SaveChanges edited_df => save_changes unverified_df edited_df
  | Verify idx now => default unverified_df (verify_button unverified_df idx now)
  | Reject idx now => default unverified_df (reject_button unverified_df idx now)
  | MarkAllFiltered s status_filter search now =>
      mark_all_filtered s status_filter search now unverified_df
  end.

(** The reading under which [verified] and [rejected] are terminal. *)
Definition terminal_under (op : operation) : Prop :=
  ∀ unverified_df i r,
    unverified_df !! i = Some r →
    status_of r ≠ pending →
    ∃ r', run op unverified_df !! i = Some r' ∧ status_of r' = status_of r.

End Unverified.


(** ** The caregiver-save paths, side by side *)

(** The two handlers that write a caregiver together with child rows. *)
Inductive save_path :=
  | NewSave (f : caregiver_form)
  | EditUpdate (caregiver_data : caregiver) (f : edit_form)
               (edited_children : list child_input).

Definition path_rows (p : save_path) : list child_input :=
  match p with
  | NewSave f => edited f
  | EditUpdate _ _ edited_children => edited_children
  end.

Definition path_save (urandom : list Z) (now : string)
    (cg_df : list caregiver) (ch_df : list child) (p : save_path)
    : list caregiver * list child :=
  match p with
  | NewSave f => upsert_caregiver urandom now cg_df ch_df f
  | EditUpdate caregiver_data f edited_children =>
      apply_update urandom now cg_df ch_df caregiver_data f edited_children
  end.

(** The caregiver's phone as the path stores it. *)
Definition path_caregiver_phone (p : save_path) : string :=
  match p with
  | NewSave f => Py.strip (c_phone f)
  | EditUpdate _ f _ => Py.strip (edit_phone f)
  end.

(** The key the path writes its rows under. *)
Definition path_key (urandom : list Z) (p : save_path) : string :=
  match p with
  | NewSave f => stable_key urandom (c_name f) (c_phone f)
  | EditUpdate caregiver_data f _ =>
      if Cell.ne_str (caregiver_name caregiver_data) (edit_name f)
         || Cell.ne_str (phone_number caregiver_data) (edit_phone f)
      then stable_key urandom (edit_name f) (edit_phone f)
      else caregiver_key caregiver_data
  end.

(** The phone a retained editor row is stored with, path by path. *)
Definition persisted_phone (p : save_path) (r : child_input) : string :=
  match p with
  | NewSave f =>
      if Cell.blank (in_child_phone_number r) then Py.strip (c_phone f)
      else Py.strip (Cell.str (in_child_phone_number r))
  | EditUpdate _ _ _ => Cell.text (in_child_phone_number r)
  end.

(** The reading under which every save path substitutes the caregiver's
    phone for a blank child phone. *)
Definition substitutes_blank_phone (p : save_path) : Prop :=
  ∀ urandom now cg_df ch_df r,
    r ∈ path_rows p →
    Py.truthy (Cell.text (in_child_name r)) = true →
    Cell.blank (in_child_phone_number r) = true →
    ∃ c, c ∈ (path_save urandom now cg_df ch_df p).2
         ∧ ch_caregiver_key c = path_key urandom p
         ∧ child_name c = CStr (Cell.text (in_child_name r))
         ∧ child_phone_number c = CStr (path_caregiver_phone p).

(** At most one caregiver row per identity key. *)
Definition unique_keys (cg_df : list caregiver) : Prop :=
  NoDup (caregiver_key <$> cg_df).

(** ** Scenarios *)

Module Scenario.

Definition entropy : list Z := replicate 16 0.
Definition entropy' : list Z := replicate 16 255.

Definition tables (o : outcome) : list caregiver * list child :=
  match o with Saved cg ch => (cg, ch) | _ => ([], []) end.

Definition no_cells : child_input :=
  ChildInput (CStr "") (CStr "") (CStr "") None None (CStr "") (CStr "")
             (CStr "") (CStr "").

Definition tom : child_input :=
  ChildInput (CStr "Tom") (CStr "") (CStr "") (Some 5) None (CStr "") (CStr "")
             (CStr "") (CStr "").

Definition form (name phone : string) (rows : list child_input) : caregiver_form :=
  CaregiverForm name None 0 "" "" phone "" "" "" "" 0 rows id.

Definition edit (name phone : string) : edit_form :=
  EditForm name None 0 "" "" phone "" "" "" "" 0.

(** Ann is saved with her child Tom, then Bob without children. *)
Definition after_ann : list caregiver * list child :=
  tables (caregiver_form_submitted entropy "t1" [] [] (form "Ann" "111" [tom])).

Definition after_bob : list caregiver * list child :=
  tables (caregiver_form_submitted entropy "t2" after_ann.1 after_ann.2
            (form "Bob" "222" [no_cells])).

(** Jane Doe is first saved without a phone number. *)
Definition after_jane_no_phone : list caregiver * list child :=
  tables (caregiver_form_submitted entropy "t1" [] [] (form "Jane Doe" "" [tom])).

Definition jane_no_phone : caregiver :=
  new_caregiver_row (stable_key entropy "Jane Doe" "") "t1" (form "Jane Doe" "" [tom]).

(** Two different readings of [os.urandom(16)]. *)
Definition seed1 : list Z := [171; 177; 177; 231; 169; 47; 0; 0; 0; 0; 0; 0; 0; 0; 0; 0].
Definition seed2 : list Z := [115; 212; 33; 97; 176; 179; 0; 0; 0; 0; 0; 0; 0; 0; 0; 0].

Definition verified_row : Unverified.record :=
  Unverified.Record_ "0a1b2c3d4e5f" "Amaka" Unverified.verified "d0" "" (Some "d1")
                     (Some "Manual Verification").

Definition reopened_row : Unverified.record :=
  Unverified.Record_ "0a1b2c3d4e5f" "Amaka" Unverified.pending "d0" "" (Some "d1")
                     (Some "Manual Verification").

Definition pending_row : Unverified.record :=
  Unverified.Record_ "112233445566" "Bayo" Unverified.pending "d0" "" None None.

Definition sam : child_input :=
  ChildInput (CStr "Sam") (CStr "") (CStr "0805-000-1111") (Some 9) None (CStr "")
             (CStr "") (CStr "") (CStr "").

(** An editor row with an age and no name. *)
Definition unnamed : child_input :=
  ChildInput (CStr "") (CStr "") (CStr "") (Some 3) None (CStr "") (CStr "")
             (CStr "") (CStr "").

(** Jane Doe is saved without a phone number, with Tom, who has none
    either, and Sam, who has one. *)
Definition jane_no_phone_workbook : list caregiver * list child :=
  tables (caregiver_form_submitted entropy "t1" [] []
            (form "Jane Doe" "" [tom; sam])).

(** Jane Doe is saved with a phone number and her child Tom. *)
Definition jane_workbook : list caregiver * list child :=
  tables (caregiver_form_submitted entropy "t1" [] []
            (form "Jane Doe" "0803-111-2222" [tom])).

(** A workbook from before child phones were filled in on saving: Jane Doe
    has a phone number, Tom has none, Sam has his own. *)
Definition legacy_workbook : list caregiver * list child :=
  (jane_workbook.1,
   [Child "a00da052508c" (CStr "Jane Doe") (CStr "Tom") (CStr "") (CStr "")
          (Some 5) None (CStr "") (CStr "") (CStr "") (CStr "") (CStr "t0");
    Child "a00da052508c" (CStr "Jane Doe") (CStr "Sam") (CStr "")
          (CStr "0805-000-1111") (Some 9) None (CStr "") (CStr "") (CStr "")
          (CStr "") (CStr "t0")]).

End Scenario.


(** ** Ages *)

(** [(m1, d1) < (m2, d2)] on Python tuples. *)
Definition tuple_lt (a b : Z * Z) : bool :=
  (a.1 <? b.1) || ((a.1 =? b.1) && (a.2 <? b.2)).

(** [calculate_age(dob)] of app.py; [today] is [datetime.now().date()]. *)
Definition calculate_age (today : date) (dob : option date) : option Z :=
  match dob with
  | None => None
  | Some dob =>
      Some (year today - year dob
            - (if tuple_lt (month today, day today) (month dob, day dob)
               then 1 else 0))
  end.

(** The date order [dob <= today]. *)
Definition date_le (a b : date) : Prop :=
  year a < year b
  ∨ (year a = year b ∧ (month a < month b ∨ (month a = month b ∧ day a ≤ day b))).

(** The form component of src/components/forms.py. *)
Module Forms.

(** [CaregiverForm._calculate_age(dob)] *)
Definition _calculate_age (today : date) (dob : option date) : Z :=
  match dob with
  | None => 0
  | Some dob =>
      let age := year today - year dob in
      if (month today <? month dob)
         || ((month today =? month dob) && (day today <? day dob))
      then age - 1 else age
  end.

End Forms.

(** ** Search and filter *)

(** [get_age_group(age)] of [apply_caregiver_filters]. *)
Definition get_age_group (age : option Z) : string :=
  match age with
  | None => "Unknown"
  | Some age =>
      if age <? 18 then "Under 18"
      else if age <? 30 then "18-29"
      else if age <? 40 then "30-39"
      else if age <? 50 then "40-49"
      else if age <? 60 then "50-59"
      else "60+"
  end.

(** [get_child_age_group(age)] of [apply_children_filters]. *)
Definition get_child_age_group (age : option Z) : string :=
  match age with
  | None => "Unknown"
  | Some age =>
      if age <=? 5 then "0-5"
      else if age <=? 12 then "6-12"
      else if age <=? 17 then "13-17"
      else if age <=? 25 then "18-25"
      else "26+"
  end.

(** The options of the two age multiselects. *)
Definition cg_age_groups : list string :=
  ["Under 18"; "18-29"; "30-39"; "40-49"; "50-59"; "60+"].
Definition ch_age_groups : list string := ["0-5"; "6-12"; "13-17"; "18-25"; "26+"].

(** [column.isin(values)] on one cell: NaN and [None] are in no list of
    strings. *)
Definition isin (c : cell) (values : list string) : bool :=
  match c with
  | CStr s => bool_decide (s ∈ values)
  | _ => false
  end.

(** [column.str.contains(term, case=False, na=False)] on one cell of a
    text column; the pattern matcher is taken as given. *)
Definition str_contains (matches : string → string → bool) (c : cell)
    (term : string) : bool :=
  match c with
  | CStr s => matches term s
  | _ => false
  end.

(** [df[mask] if values else df] *)
Definition filter_if {A} (active : bool) (mask : A → bool) (df : list A) : list A :=
  if active then filter (λ r, mask r = true) df else df.

Definition chosen (values : list string) : bool :=
  match values with [] => false | _ => true end.

Record caregiver_filters := CaregiverFilters {
  cg_gender_filter : list string;
  cg_age_filter : list string;
  cg_profession_filter : list string;
  cg_zonal_filter : list string
}.

Record children_filters := ChildrenFilters {
  ch_gender_filter : list string;
  ch_age_filter : list string;
  ch_education_filter : list string;
  ch_profession_filter : list string
}.

(** [apply_caregiver_filters(df)] with the widget values it reads. *)
Definition apply_caregiver_filters (matches : string → string → bool)
    (search_term : string) (w : caregiver_filters) (df : list caregiver)
    : list caregiver :=
  let filtered_df := df in
  let filtered_df :=
    filter_if (Py.truthy search_term)
      (λ r, str_contains matches (caregiver_name r) search_term) filtered_df in
  let filtered_df :=
    filter_if (chosen (cg_gender_filter w))
      (λ r, isin (gender r) (cg_gender_filter w)) filtered_df in
  let filtered_df :=
    filter_if (chosen (cg_age_filter w))
      (λ r, bool_decide (get_age_group (age r) ∈ cg_age_filter w)) filtered_df in
  let filtered_df :=
    filter_if (chosen (cg_profession_filter w))
      (λ r, isin (profession r) (cg_profession_filter w)) filtered_df in
  let filtered_df :=
    filter_if (chosen (cg_zonal_filter w))
      (λ r, isin (zonal_leader r) (cg_zonal_filter w)) filtered_df in
  filtered_df.

(** [apply_children_filters(df)] *)
Definition apply_children_filters (matches : string → string → bool)
    (search_term : string) (w : children_filters) (df : list child)
    : list child :=
  let filtered_df := df in
  let filtered_df :=
    filter_if (Py.truthy search_term)
      (λ r, str_contains matches (child_name r) search_term
            || str_contains matches (ch_caregiver_name r) search_term) filtered_df in
  let filtered_df :=
    filter_if (chosen (ch_gender_filter w))
      (λ r, isin (child_gender r) (ch_gender_filter w)) filtered_df in
  let filtered_df :=
    filter_if (chosen (ch_age_filter w))
      (λ r, bool_decide (get_child_age_group (child_age r) ∈ ch_age_filter w))
      filtered_df in
  let filtered_df :=
    filter_if (chosen (ch_education_filter w))
      (λ r, isin (child_education_level r) (ch_education_filter w)) filtered_df in
  let filtered_df :=
    filter_if (chosen (ch_profession_filter w))
      (λ r, isin (child_profession r) (ch_profession_filter w)) filtered_df in
  filtered_df.

(** ** Deleting a caregiver ("Confirm Delete") *)

(** [cg_df[cg_df["caregiver_name"] == delete_caregiver]["caregiver_key"].iloc[0]] *)
Definition delete_key (cg_df : list caregiver) (delete_caregiver : string)
    : option string :=
  caregiver_key <$>
    head (filter (λ r, Cell.eq_str (caregiver_name r) delete_caregiver = true) cg_df).

(** [child_count], the number shown in the warning and the success message. *)
Definition child_count (ch_df : list child) (key : string) : nat :=
  length (filter (λ r, ch_caregiver_key r = key) ch_df).

Definition delete_confirm (cg_df : list caregiver) (ch_df : list child)
    (delete_caregiver : string) : outcome :=
  if negb (Py.truthy delete_caregiver) then NotShown
  else
    match delete_key cg_df delete_caregiver with
    | None => Raised "IndexError"
    | Some key =>
        let cg_df := filter (λ r, caregiver_key r ≠ key) cg_df in
        let ch_df := filter (λ r, ch_caregiver_key r ≠ key) ch_df in
        Saved cg_df ch_df
    end.

(** ** Child-shaped import *)

Record child_import_row := ChildImportRow {
  ci_child_name : cell;
  ci_caregiver_name : cell;
  ci_child_gender : cell;
  ci_child_phone_number : cell;
  ci_child_age : option Z;
  ci_child_date_of_birth : option date;
  ci_child_education_level : cell;
  ci_child_school_name : cell;
  ci_child_class_level : cell;
  ci_child_profession : cell
}.

(** The tables in scope and the warnings shown so far. *)
Record import_state := ImportState {
  st_cg_df : list caregiver;
  st_ch_df : list child;
  st_warnings : list string
}.

(** One turn of the CSV branch's loop over child rows. *)
Definition import_child_row (now : string) (s : import_state)
    (row : child_import_row) : import_state :=
  let name := Cell.text (ci_child_name row) in
  if negb (Py.truthy name) then s
  else
    let cg_name := Cell.text (ci_caregiver_name row) in
    let caregiver_row :=
      filter (λ r, Cell.eq_str (caregiver_name r) cg_name = true) (st_cg_df s) in
    match caregiver_row with
    | [] =>
        ImportState (st_cg_df s) (st_ch_df s)
          (st_warnings s
           ++ ["No caregiver found for child '" +:+ name +:+ "'. Skipping."])
    | first :: _ =>
        let key := caregiver_key first in
        let child_phone := Cell.text (ci_child_phone_number row) in
        let new_child :=
          {| ch_caregiver_key := key;
             ch_caregiver_name := CStr cg_name;
             child_name := CStr name;
             child_gender := CStr (Cell.text (ci_child_gender row));
             child_phone_number := CStr child_phone;
             child_age := ci_child_age row;
             child_date_of_birth := ci_child_date_of_birth row;
             child_education_level := CStr (Cell.text (ci_child_education_level row));
             child_school_name := CStr (Cell.text (ci_child_school_name row));
             child_class_level := CStr (Cell.text (ci_child_class_level row));
             child_profession := CStr (Cell.text (ci_child_profession row));
             ch_last_updated := CStr now |} in
        let ch_df :=
          filter (λ c, ¬ (ch_caregiver_key c = key
                          ∧ Cell.eq_str (child_name c) name = true))
                 (st_ch_df s) in
        ImportState (st_cg_df s) (ch_df ++ [new_child]) (st_warnings s)
    end.

Fixpoint import_child_rows (utcnow : nat → string) (i : nat) (s : import_state)
    (rows : list child_import_row) : import_state :=
  match rows with
  | [] => s
  | row :: rows' =>
      import_child_rows utcnow (S i) (import_child_row (utcnow i) s row) rows'
  end.

(** [elif is_child_data:] of the CSV branch: the state at [save_data]. *)
Definition import_child_data (utcnow : nat → string)
    (cg_df : list caregiver) (ch_df : list child) (import_df : list child_import_row)
    : import_state :=
  import_child_rows utcnow 0 (ImportState cg_df ch_df []) import_df.

(** The Excel branch builds [new_child] with [child_phone], a name the
    branch never binds: the first row that has a name and a caregiver
    raises, the surrounding [except] reports it, and [save_data] is not
    reached.  Rows skipped before that leave the tables as they are. *)
Fixpoint import_child_rows_excel (cg_df : list caregiver) (ch_df : list child)
    (rows : list child_import_row) : outcome :=
  match rows with
  | [] => Saved cg_df ch_df
  | row :: rows' =>
      let name := Cell.text (ci_child_name row) in
      if negb (Py.truthy name) then import_child_rows_excel cg_df ch_df rows'
      else
        let cg_name := Cell.text (ci_caregiver_name row) in
        match filter (λ r, Cell.eq_str (caregiver_name r) cg_name = true) cg_df with
        | [] => import_child_rows_excel cg_df ch_df rows'
        | _ :: _ => Raised "NameError"
        end
  end.

(** ** The manage tab and the sidebar statistics of the unverified names *)

Module Manage.

(** "Delete All Filtered":
    [unverified_df[~unverified_df.index.isin(filtered_df.index)]] *)
Definition delete_all_filtered (status_filter : option Unverified.status)
    (search : string → bool) (unverified_df : list Unverified.record)
    : list Unverified.record :=
  filter (λ r, Unverified.filtered status_filter search r = false) unverified_df.

Record stats := Stats { total : nat; pending : nat; verified : nat; rejected : nat }.

(** [status_counts.get(s, 0)] *)
Definition status_count (s : Unverified.status) (df : list Unverified.record) : nat :=
  length (filter (λ r, Unverified.status_of r = s) df).

(** [get_unverified_stats()] on the loaded collection. *)
Definition get_unverified_stats (unverified_df : list Unverified.record) : stats :=
  match unverified_df with
  | [] => Stats 0 0 0 0
  | _ =>
      Stats (length unverified_df)
            (status_count Unverified.pending unverified_df)
            (status_count Unverified.verified unverified_df)
            (status_count Unverified.rejected unverified_df)
  end.

End Manage.

(** ** Sequences of writes to the workbook *)

(** The handlers that call [save_data(cg_df, ch_df)]. *)
Inductive write_op :=
  | FormSave (urandom : list Z) (now : string) (f : caregiver_form)
  | EditSave (urandom : list Z) (now : string) (selected_caregiver : string)
             (f : edit_form) (user : list child_input → list child_input)
  | Delete (delete_caregiver : string)
  | ImportCaregivers (urandom : nat → list Z) (utcnow : nat → string)
                     (import_df : list import_row)
  | ImportChildren (utcnow : nat → string) (import_df : list child_import_row)
  | ImportChildrenExcel (import_df : list child_import_row)
  | Migrate.

(** The workbook after a handler: what it saved, or what was there when it
    stopped or raised. *)
Definition stored (o : outcome) (tables : list caregiver * list child)
    : list caregiver * list child :=
  match o with Saved cg ch => (cg, ch) | _ => tables end.

Definition apply_op (tables : list caregiver * list child) (op : write_op)
    : list caregiver * list child :=
  let '(cg_df, ch_df) := tables in
  match op with
  | FormSave urandom now f =>
      stored (caregiver_form_submitted urandom now cg_df ch_df f) tables
  | EditSave urandom now selected_caregiver f user =>
      stored (update_submitted urandom now cg_df ch_df selected_caregiver f user) tables
  | Delete delete_caregiver =>
      stored (delete_confirm cg_df ch_df delete_caregiver) tables
  | ImportCaregivers urandom utcnow import_df =>
      import_caregiver_data urandom utcnow cg_df ch_df import_df
  | ImportChildren utcnow import_df =>
      let s := import_child_data utcnow cg_df ch_df import_df in
      (st_cg_df s, st_ch_df s)
  | ImportChildrenExcel import_df =>
      stored (import_child_rows_excel cg_df ch_df import_df) tables
  | Migrate => (migrate_child_phone_numbers cg_df ch_df).1
  end.

Definition run_ops (ops : list write_op) (tables : list caregiver * list child)
    : list caregiver * list child :=
  foldl apply_op tables ops.


(** Every child row passes the name test of the handlers,
    [str(r.get("child_name") or "").strip()] is not empty.  A missing name
    cell passes it: NaN is true, and its text is "nan". *)
Definition children_named (ch_df : list child) : Prop :=
  Forall (λ c, Py.truthy (Cell.text (child_name c)) = true) ch_df.

(** The name cell holds text that is not empty and has no white space
    around it. *)
Definition text_named (c : child) : Prop :=
  ∃ s, child_name c = CStr s ∧ Py.strip s = s ∧ Py.truthy s = true.


(** A lowercase hexadecimal digit. *)
Definition is_lower_hex (c : ascii) : bool :=
  let n := Py.code c in
  ((48 <=? n) && (n <=? 57)) || ((97 <=? n) && (n <=? 102)).

(** A child row with a name whose caregiver name matches no caregiver. *)
Definition caregiver_missing (cg_df : list caregiver) (row : child_import_row) : bool :=
  Py.truthy (Cell.text (ci_child_name row))
  && negb (existsb (λ r, Cell.eq_str (caregiver_name r) (Cell.text (ci_caregiver_name row)))
                   cg_df).

(** A child row that the import stores: it has a name and a caregiver. *)
Definition importable (cg_df : list caregiver) (row : child_import_row) : bool :=
  Py.truthy (Cell.text (ci_child_name row))
  && existsb (λ r, Cell.eq_str (caregiver_name r) (Cell.text (ci_caregiver_name row)))
             cg_df.

(** The phone the migration would copy into a child row: the row's phone is
    blank and the dictionary has a usable phone for its key. *)
Definition fill_phone (phones : gmap string cell) (row : child) : option string :=
  if Cell.blank (child_phone_number row) then
    match phones !! ch_caregiver_key row with
    | Some caregiver_phone =>
        if Cell.truthy caregiver_phone && Py.truthy (Py.strip (Cell.str caregiver_phone))
        then Some (Py.strip (Cell.str caregiver_phone))
        else None
    | None => None
    end
  else None.

(** Rows can be compared. *)
#[global] Instance cell_eq_dec : EqDecision cell.
Proof. solve_decision. Defined.

#[global] Instance date_eq_dec : EqDecision date.
Proof. solve_decision. Defined.

#[global] Instance caregiver_eq_dec : EqDecision caregiver.
Proof. solve_decision. Defined.

#[global] Instance child_eq_dec : EqDecision child.
Proof. solve_decision. Defined.

#[global] Instance record_eq_dec : EqDecision Unverified.record.
Proof. solve_decision. Defined.
(** * Properties *)

(** ** The SHA-1 model against the FIPS 180 test vectors *)

Example sha1_abc :
  Sha1.hexdigest (Py.encode_utf8 "abc") = "a9993e364706816aba3e25717850c26c9cd0d89d".
Proof. vm_compute. reflexivity. Qed.

Example sha1_empty :
  Sha1.hexdigest [] = "da39a3ee5e6b4b0d3255bfef95601890afd80709".
Proof. vm_compute. reflexivity. Qed.

Example sha1_two_blocks :
  Sha1.hexdigest
    (Py.encode_utf8 "abcdbcdecdefdefgefghfghighijhijkijkljklmklmnlmnomnopnopq")
  = "84983e441c3bd26ebaae4aa1f95129e5e54670f1".
Proof. vm_compute. reflexivity. Qed.

(** ** Stripping *)

Section Strip.
Variable p : ascii → bool.

Lemma rstrip_by_idem s : Py.rstrip_by p (Py.rstrip_by p s) = Py.rstrip_by p s.
Proof.
  induction s as [|c r IH]; simpl; [done|].
  destruct (Py.rstrip_by p r) as [|a r'] eqn:E.
  - destruct (p c) eqn:Hc; simpl; [done|]. by rewrite Hc.
  - simpl in *. by rewrite IH.
Qed.

Lemma lstrip_by_head s :
  Py.lstrip_by p s = "" ∨ ∃ c r, Py.lstrip_by p s = String c r ∧ p c = false.
Proof.
  induction s as [|c r IH]; simpl; [by left|].
  destruct (p c) eqn:Hc; [done|]. right. by exists c, r.
Qed.

Lemma rstrip_by_head c r :
  p c = false → ∃ r', Py.rstrip_by p (String c r) = String c r'.
Proof.
  intros Hc. simpl. destruct (Py.rstrip_by p r); rewrite ?Hc; eauto.
Qed.

Lemma strip_by_idem s : Py.strip_by p (Py.strip_by p s) = Py.strip_by p s.
Proof.
  unfold Py.strip_by.
  destruct (lstrip_by_head s) as [->|(c & r & -> & Hc)]; [done|].
  destruct (rstrip_by_head c r Hc) as [r' Hr].
  assert (Py.lstrip_by p (Py.rstrip_by p (String c r)) = Py.rstrip_by p (String c r)) as ->.
  { rewrite Hr. simpl. by rewrite Hc. }
  apply rstrip_by_idem.
Qed.

Lemma rstrip_by_empty s : Py.rstrip_by p s = "" ↔ Py.all_chars p s = true.
Proof.
  induction s as [|c r IH]; simpl; [done|].
  destruct (Py.rstrip_by p r) eqn:E.
  - destruct (p c); simpl; [tauto|]. split; [done|]. intros [=].
  - split; [done|]. intros [_ H]%andb_prop. apply IH in H. done.
Qed.

Lemma lstrip_by_all s : Py.all_chars p (Py.lstrip_by p s) = Py.all_chars p s.
Proof.
  induction s as [|c r IH]; simpl; [done|].
  destruct (p c) eqn:Hc; simpl; [done|]. by rewrite Hc.
Qed.

Lemma strip_by_truthy s : Py.truthy (Py.strip_by p s) = negb (Py.all_chars p s).
Proof.
  unfold Py.strip_by. rewrite <- (lstrip_by_all s).
  destruct (Py.rstrip_by p (Py.lstrip_by p s)) eqn:E; simpl.
  - apply rstrip_by_empty in E. by rewrite E.
  - destruct (Py.all_chars p (Py.lstrip_by p s)) eqn:A; [|done].
    apply rstrip_by_empty in A. congruence.
Qed.
End Strip.

Lemma strip_idem s : Py.strip (Py.strip s) = Py.strip s.
Proof. apply strip_by_idem. Qed.

(** ** Migration of child phone numbers *)

Lemma blank_stripped s :
  Py.truthy (Py.strip s) = true → Cell.blank (CStr (Py.strip s)) = false.
Proof.
  intros H. unfold Cell.blank. simpl. by rewrite strip_idem, H.
Qed.

(** A second pass over migrated rows changes nothing and counts nothing. *)
Lemma migrate_rows_again phones rows n m :
  migrate_rows phones (migrate_rows phones rows n).1 m
  = ((migrate_rows phones rows n).1, m).
Proof.
  revert n m. induction rows as [|row rows IH]; intros n m; [done|].
  cbn [migrate_rows].
  destruct (Cell.blank (child_phone_number row)) eqn:Hb.
  - destruct (phones !! ch_caregiver_key row) as [cp|] eqn:Hl.
    + destruct (Cell.truthy cp && Py.truthy (Py.strip (Cell.str cp))) eqn:Ht.
      * apply andb_prop in Ht as [_ Ht].
        destruct (migrate_rows phones rows (S n)) as [rest k] eqn:E.
        cbn [fst migrate_rows set_child_phone child_phone_number ch_caregiver_key].
        rewrite (blank_stripped _ Ht).
        specialize (IH (S n) m). rewrite E in IH. cbn [fst] in IH. by rewrite IH.
      * destruct (migrate_rows phones rows n) as [rest k] eqn:E.
        cbn [fst migrate_rows]. rewrite Hb, Hl, Ht.
        specialize (IH n m). rewrite E in IH. cbn [fst] in IH. by rewrite IH.
    + destruct (migrate_rows phones rows n) as [rest k] eqn:E.
      cbn [fst migrate_rows]. rewrite Hb, Hl.
      specialize (IH n m). rewrite E in IH. cbn [fst] in IH. by rewrite IH.
  - destruct (migrate_rows phones rows n) as [rest k] eqn:E.
    cbn [fst migrate_rows]. rewrite Hb.
    specialize (IH n m). rewrite E in IH. cbn [fst] in IH. by rewrite IH.
Qed.

(** The count never drops below its start, and a pass that counts nothing
    has changed nothing. *)
Lemma migrate_rows_count phones rows n :
  (n ≤ (migrate_rows phones rows n).2)%nat.
Proof.
  revert n. induction rows as [|row rows IH]; intros n; [done|].
  cbn [migrate_rows].
  repeat case_match; simplify_eq;
    match goal with
    | H : migrate_rows _ _ ?k = (_, ?j) |- _ =>
        specialize (IH k); rewrite H in IH; cbn [snd] in *; lia
    end.
Qed.

Lemma migrate_rows_unchanged phones rows n :
  (migrate_rows phones rows n).2 = n → (migrate_rows phones rows n).1 = rows.
Proof.
  revert n. induction rows as [|row rows IH]; intros n; [done|].
  cbn [migrate_rows].
  repeat case_match; simplify_eq; cbn [fst snd]; intros ->;
    match goal with
    | H : migrate_rows _ _ ?k = (_, ?j) |- _ =>
        pose proof (migrate_rows_count phones rows k) as Hc;
        specialize (IH k); rewrite H in IH, Hc; cbn [fst snd] in *;
        first [ lia | by rewrite IH ]
    end.
Qed.

(** In memory, without the way through the workbook, the loop finds
    nothing to do on its own result. *)
Lemma migrate_in_memory_again cg_df ch_df :
  let '((cg1, ch1), _) := migrate_child_phone_numbers cg_df ch_df in
  migrate_child_phone_numbers cg1 ch1 = ((cg1, ch1), 0%nat).
Proof.
  unfold migrate_child_phone_numbers.
  destruct (migrate_rows (caregiver_phones cg_df) ch_df 0) as [ch_new n] eqn:E.
  destruct (0 <? n)%nat eqn:Hn.
  - pose proof (migrate_rows_again (caregiver_phones cg_df) ch_df 0%nat 0%nat) as H.
    rewrite E in H. cbn [fst] in H. by rewrite H.
  - rewrite E, Hn. done.
Qed.

(** C6: the second call does not return 0 when a caregiver without a phone
    has a child without one.  Jane Doe is saved with no phone, Tom with
    none, Sam with his own.  Both of the empty cells are read back as NaN.
    NaN is true and its text is "nan", so the first call writes "nan" as
    Tom's phone and returns 1.  "nan" is read back as NaN: the second call
    finds Tom's phone missing again, writes the same workbook again and
    returns 1. *)
Theorem migrate_child_phone_numbers_counts_again :
  let wb := Scenario.jane_no_phone_workbook in
  let '(wb1, n1) := Workbook.migrate_child_phone_numbers wb in
  let '(wb2, n2) := Workbook.migrate_child_phone_numbers wb1 in
  phone_number <$> wb.1 = [CStr ""]
  ∧ child_phone_number <$> wb.2 = [CStr ""; CStr "0805-000-1111"]
  ∧ phone_number <$> (Workbook.load_data wb).1 = [CNaN]
  ∧ child_phone_number <$> (Workbook.load_data wb).2 = [CNaN; CStr "0805-000-1111"]
  ∧ n1 = 1%nat
  ∧ child_phone_number <$> wb1.2 = [CStr "nan"; CStr "0805-000-1111"]
  ∧ child_phone_number <$> (Workbook.load_data wb1).2 = [CNaN; CStr "0805-000-1111"]
  ∧ n2 = 1%nat
  ∧ wb2 = wb1.
Proof. vm_compute. by repeat split. Qed.

(** After the edit that gave Jane Doe a phone, Tom's phone is blank; the
    migration copies Jane's phone into it and counts one row, and a second
    run counts none. *)
Example migrate_tom :
  let loaded := Workbook.load_data Scenario.after_jane_no_phone in
  let stored :=
    Scenario.tables
      (update_submitted Scenario.entropy "t2" loaded.1 loaded.2 "Jane Doe"
         (Scenario.edit "Jane Doe" "0803-999-0000") id) in
  let '(wb1, n1) := Workbook.migrate_child_phone_numbers stored in
  child_phone_number <$> stored.2 = [CStr ""]
  ∧ child_phone_number <$> wb1.2 = [CStr "0803-999-0000"]
  ∧ n1 = 1%nat
  ∧ (Workbook.migrate_child_phone_numbers wb1).2 = 0%nat.
Proof. by vm_compute. Qed.

(** ** The save paths *)

(** [if children_rows: ch_df = pd.concat([ch_df, children_rows])] appends in
    every case, an empty list included. *)
Lemma concat_if_any {A} (l rows : list A) :
  match rows with [] => l | _ => l ++ rows end = l ++ rows.
Proof. destruct rows; [by rewrite app_nil_r | done]. Qed.


Lemma upsert_children urandom now cg_df ch_df f :
  let key := stable_key urandom (c_name f) (c_phone f) in
  (upsert_caregiver urandom now cg_df ch_df f).2
  = filter (λ r, ch_caregiver_key r ≠ key) ch_df
    ++ omap (new_child_row key now f) (edited f).
Proof. unfold upsert_caregiver. cbn [snd]. apply concat_if_any. Qed.

Lemma upsert_caregivers urandom now cg_df ch_df f :
  let key := stable_key urandom (c_name f) (c_phone f) in
  (upsert_caregiver urandom now cg_df ch_df f).1
  = filter (λ r, caregiver_key r ≠ key) cg_df ++ [new_caregiver_row key now f].
Proof. done. Qed.




(** Before that save Ann's key had a child row. *)
Example ann_had_a_child :
  child_name <$> filter (λ c, ch_caregiver_key c = stable_key Scenario.entropy "Ann" "111")
                        Scenario.after_ann.2
  = [CStr "Tom"].
Proof. by vm_compute. Qed.

(** The list of rows without a name is empty exactly when no row fails the
    test, whatever the index labels are. *)
Lemma missing_child_names_nil label rows :
  missing_child_names label rows = [] ↔ existsb missing_child_name rows = false.
Proof.
  unfold missing_child_names, iterrows. revert label.
  induction rows as [|r l IH]; intros label; [done|].
  cbn [imap existsb]. rewrite filter_cons. cbn [snd].
  destruct (missing_child_name r) eqn:Hr.
  - rewrite decide_True by done. cbn. split; discriminate.
  - rewrite decide_False by done. cbn [orb]. apply IH.
Qed.

(** No row is ever reported for its phone number. *)
Lemma invalid_child_phones_nil label rows : invalid_child_phones label rows = [].
Proof.
  unfold invalid_child_phones, iterrows. revert label.
  induction rows as [|r l IH]; intros label; [done|].
  cbn [imap]. rewrite filter_cons. cbn [snd].
  rewrite decide_False; [apply IH|].
  unfold invalid_child_phone, validate_phone_number. cbn [negb].
  rewrite andb_false_r. discriminate.
Qed.

(** The form handler saves what the upsert computes once the validation
    has passed. *)
Lemma caregiver_form_submitted_saves urandom now cg_df ch_df f :
  Py.truthy (c_name f) = true →
  existsb missing_child_name (edited f) = false →
  caregiver_form_submitted urandom now cg_df ch_df f
  = Saved (upsert_caregiver urandom now cg_df ch_df f).1
          (upsert_caregiver urandom now cg_df ch_df f).2.
Proof.
  intros Hn Hm. unfold caregiver_form_submitted. rewrite Hn. cbn [negb].
  apply (missing_child_names_nil (edited_label f)) in Hm. rewrite Hm.
  rewrite invalid_child_phones_nil.
  by destruct (upsert_caregiver urandom now cg_df ch_df f).
Qed.

Lemma apply_update_children urandom now cg_df ch_df cd f rows :
  let changed := Cell.ne_str (caregiver_name cd) (edit_name f)
                 || Cell.ne_str (phone_number cd) (edit_phone f) in
  (apply_update urandom now cg_df ch_df cd f rows).2
  = (if changed then filter (λ r, ch_caregiver_key r ≠ caregiver_key cd) ch_df
     else ch_df)
    ++ omap (updated_child_row (path_key urandom (EditUpdate cd f rows)) now f) rows.
Proof.
  unfold apply_update, path_key.
  destruct (Cell.ne_str (caregiver_name cd) (edit_name f)
            || Cell.ne_str (phone_number cd) (edit_phone f));
    cbn [snd]; apply concat_if_any.
Qed.

Lemma apply_update_caregivers urandom now cg_df ch_df cd f rows :
  (apply_update urandom now cg_df ch_df cd f rows).1
  = filter (λ r, caregiver_key r ≠ caregiver_key cd) cg_df
    ++ [updated_caregiver (path_key urandom (EditUpdate cd f rows)) now f].
Proof.
  unfold apply_update, path_key.
  by destruct (Cell.ne_str (caregiver_name cd) (edit_name f)
               || Cell.ne_str (phone_number cd) (edit_phone f)).
Qed.

(** C4, as the code has it: on both save paths every editor row with a
    name is stored under the path's key; the form for a new caregiver
    stores a blank phone as the caregiver's trimmed phone and any other
    phone trimmed, the edit form stores the row's own trimmed phone, blank
    or not. *)
Theorem child_phone_as_persisted urandom now cg_df ch_df p r :
  r ∈ path_rows p →
  Py.truthy (Cell.text (in_child_name r)) = true →
  ∃ c, c ∈ (path_save urandom now cg_df ch_df p).2
       ∧ ch_caregiver_key c = path_key urandom p
       ∧ child_name c = CStr (Cell.text (in_child_name r))
       ∧ child_phone_number c = CStr (persisted_phone p r).
Proof.
  intros Hr Hname. destruct p as [f|cd f rows]; cbn [path_rows path_save] in *.
  - destruct (new_child_row (stable_key urandom (c_name f) (c_phone f)) now f r)
      as [c|] eqn:Hc; unfold new_child_row in Hc; rewrite Hname in Hc; [|done].
    exists c. rewrite upsert_children. cbn zeta. split.
    + apply elem_of_app. right. apply list_elem_of_omap. exists r. split; [done|].
      unfold new_child_row. by rewrite Hname.
    + cbn [negb] in Hc. injection Hc as <-. cbn. by destruct (Cell.blank _).
  - destruct (updated_child_row (path_key urandom (EditUpdate cd f rows)) now f r)
      as [c|] eqn:Hc; unfold updated_child_row in Hc; rewrite Hname in Hc; [|done].
    exists c. rewrite apply_update_children. cbn zeta. split.
    + apply elem_of_app. right. apply list_elem_of_omap. exists r. split; [done|].
      unfold updated_child_row. by rewrite Hname.
    + cbn [negb] in Hc. by injection Hc as <-.
Qed.

Lemma child_phone_as_persisted_witness :
  ∃ c, c ∈ (path_save Scenario.entropy "t1" [] []
              (NewSave (Scenario.form "Jane Doe" "0803-111-2222" [Scenario.tom]))).2
       ∧ ch_caregiver_key c = "a00da052508c"
       ∧ child_name c = CStr "Tom"
       ∧ child_phone_number c = CStr "0803-111-2222".
Proof.
  apply (child_phone_as_persisted Scenario.entropy "t1" [] []
           (NewSave (Scenario.form "Jane Doe" "0803-111-2222" [Scenario.tom]))
           Scenario.tom).
  - apply list_elem_of_here.
  - vm_compute. reflexivity.
Defined.

(** C4, as stated, fails on the edit path: Jane Doe was saved without a
    phone, the edit gives her one, and Tom's blank phone is stored blank. *)
Lemma edit_update_keeps_blank_phone :
  ¬ substitutes_blank_phone
      (EditUpdate Scenario.jane_no_phone (Scenario.edit "Jane Doe" "0803-999-0000")
                  [Scenario.tom]).
Proof.
  intros H.
  destruct (H Scenario.entropy "t2" [] [] Scenario.tom) as (c & Hc & _ & _ & Hp).
  - apply list_elem_of_here.
  - vm_compute. reflexivity.
  - vm_compute. reflexivity.
  - vm_compute in Hc. apply list_elem_of_singleton in Hc. subst c.
    vm_compute in Hp. discriminate Hp.
Qed.

(** The same edit through the whole handler. *)
Example edit_jane_adds_phone :
  ∃ cg' c,
    update_submitted Scenario.entropy "t2" Scenario.after_jane_no_phone.1
      Scenario.after_jane_no_phone.2 "Jane Doe"
      (Scenario.edit "Jane Doe" "0803-999-0000") id = Saved cg' [c]
    ∧ phone_number <$> cg' = [CStr "0803-999-0000"]
    ∧ child_name c = CStr "Tom" ∧ child_phone_number c = CStr "".
Proof. vm_compute. eauto 10. Qed.

(** ** One caregiver row per key *)

Section UniqueKeys.
Implicit Types (cg_df : list caregiver) (key : string).

Lemma unique_keys_filter (P : caregiver → Prop) `{∀ r, Decision (P r)} cg_df :
  unique_keys cg_df → unique_keys (filter P cg_df).
Proof.
  unfold unique_keys. induction cg_df as [|x l IH]; [done|].
  rewrite fmap_cons, NoDup_cons. intros [Hx Hl].
  rewrite filter_cons. destruct (decide (P x)); [|by apply IH].
  rewrite fmap_cons, NoDup_cons. split; [|by apply IH].
  intros (y & Hy & [_ Hin]%list_elem_of_filter)%list_elem_of_fmap.
  apply Hx, list_elem_of_fmap. eauto.
Qed.

Lemma key_not_in_filter key cg_df :
  key ∉ caregiver_key <$> filter (λ r, caregiver_key r ≠ key) cg_df.
Proof.
  intros (y & Hy & [Hne _]%list_elem_of_filter)%list_elem_of_fmap. done.
Qed.

(** Remove the rows of [old], append a row of [new]: the keys stay
    distinct when [new] is [old] or is not in use. *)
Lemma unique_keys_rekey cg_df old new row :
  caregiver_key row = new →
  (new = old ∨ new ∉ caregiver_key <$> cg_df) →
  unique_keys cg_df →
  unique_keys (filter (λ r, caregiver_key r ≠ old) cg_df ++ [row]).
Proof.
  intros Hrow Hnew Huniq. unfold unique_keys.
  rewrite fmap_app. apply NoDup_app. split; [by apply unique_keys_filter|].
  split; [|apply NoDup_singleton].
  intros k Hk [->|[]%elem_of_nil]%elem_of_cons.
  rewrite Hrow in Hk. destruct Hnew as [->|Hfresh].
  - by apply key_not_in_filter in Hk.
  - apply Hfresh. apply list_elem_of_fmap in Hk as (y & -> & [_ Hy]%list_elem_of_filter).
    by apply list_elem_of_fmap_2.
Qed.




(** The edit keeps them distinct when the key it writes is the old one
    or one that no row has. *)
Lemma unique_keys_update urandom now cg_df ch_df cd f rows :
  let new_key := path_key urandom (EditUpdate cd f rows) in
  new_key = caregiver_key cd ∨ new_key ∉ caregiver_key <$> cg_df →
  unique_keys cg_df →
  unique_keys (apply_update urandom now cg_df ch_df cd f rows).1.
Proof.
  intros new_key Hnew H. rewrite apply_update_caregivers.
  by apply (unique_keys_rekey _ _ new_key).
Qed.
End UniqueKeys.

(** C1 at its failing input: Ann (with her child Tom) and Bob are saved
    through the form, one row per key; the edit of Ann that types in Bob's
    name and phone derives Bob's key, removes Ann's row only, and leaves
    two rows under Bob's key. *)
Theorem edit_onto_used_key_duplicates :
  unique_keys Scenario.after_bob.1
  ∧ ∃ cg' ch',
      update_submitted Scenario.entropy "t3" Scenario.after_bob.1
        Scenario.after_bob.2 "Ann" (Scenario.edit "Bob" "222") id = Saved cg' ch'
      ∧ caregiver_key <$> cg' = ["819a0d7307eb"; "819a0d7307eb"]
      ∧ ¬ unique_keys cg'.
Proof.
  split.
  - unfold unique_keys. vm_compute. apply NoDup_cons. split.
    + intros [[=]|[]%elem_of_nil]%elem_of_cons.
    + apply NoDup_singleton.
  - eexists _, _. split; [vm_compute; reflexivity|]. split; [reflexivity|].
    unfold unique_keys. cbn. intros [Hin _]%NoDup_cons. apply Hin, list_elem_of_here.
Qed.

(** ** Editing a caregiver *)

Lemma no_invalid_child_phone rows : existsb invalid_child_phone rows = false.
Proof.
  induction rows as [|r l IH]; [done|]. cbn [existsb]. rewrite IH.
  unfold invalid_child_phone, validate_phone_number. cbn [negb].
  by rewrite andb_false_r.
Qed.

Section Edit.
Variables (urandom : list Z) (now : string).
Variables (cg_df : list caregiver) (ch_df : list child).
Variables (selected_caregiver : string) (f : edit_form).
Variables (caregiver_data : caregiver) (others : list caregiver).

Hypothesis selected :
  filter (λ r, Cell.eq_str (caregiver_name r) selected_caregiver = true) cg_df
  = caregiver_data :: others.
Hypothesis chosen : Py.truthy selected_caregiver = true.
Hypothesis named : Py.truthy (edit_name f) = true.

Let old_key := caregiver_key caregiver_data.
Let caregiver_children := filter (λ r, ch_caregiver_key r = old_key) ch_df.

(** With no child row there is no editor, and the handler stops on the
    unbound [edited_children] before anything is written. *)
Lemma update_submitted_childless user :
  caregiver_children = [] →
  update_submitted urandom now cg_df ch_df selected_caregiver f user
  = Raised "NameError".
Proof.
  intros Hnone. unfold update_submitted. rewrite chosen, selected. cbn [negb].
  fold old_key. fold caregiver_children. by rewrite Hnone, named.
Qed.

(** With a child row the handler saves what [apply_update] computes from
    the editor's rows. *)
Lemma update_submitted_saves user :
  caregiver_children ≠ [] →
  let result :=
    apply_update urandom now cg_df ch_df caregiver_data f
                 (user (children_edit_data caregiver_children)) in
  update_submitted urandom now cg_df ch_df selected_caregiver f user
  = Saved result.1 result.2.
Proof.
  intros Hsome result. unfold update_submitted. rewrite chosen, selected. cbn [negb].
  fold old_key. fold caregiver_children.
  destruct caregiver_children as [|c l] eqn:E; [done|].
  rewrite named, no_invalid_child_phone. cbn [negb].
  subst result. by destruct (apply_update _ _ _ _ _ _ _).
Qed.

(** Re-keying: name or phone changed and the derived key is a new one.
    With the editor's rows left as pre-filled, the saved tables hold no
    caregiver row and no child row under the old key, and every child
    row of the old key that has a name is stored again under the new
    key, with the fields the editor showed. *)
Lemma rekey_moves_children :
  caregiver_children ≠ [] →
  Cell.ne_str (caregiver_name caregiver_data) (edit_name f)
  || Cell.ne_str (phone_number caregiver_data) (edit_phone f) = true →
  let new_key := stable_key urandom (edit_name f) (edit_phone f) in
  new_key ≠ old_key →
  ∃ cg' ch',
    update_submitted urandom now cg_df ch_df selected_caregiver f id = Saved cg' ch'
    ∧ (∀ r, r ∈ cg' → caregiver_key r ≠ old_key)
    ∧ (∀ c, c ∈ ch' → ch_caregiver_key c ≠ old_key)
    ∧ (∃ r, r ∈ cg' ∧ caregiver_key r = new_key)
    ∧ ∀ c, c ∈ ch_df → ch_caregiver_key c = old_key →
           Py.truthy (Cell.text (child_name c)) = true →
           ∃ c', c' ∈ ch'
                 ∧ ch_caregiver_key c' = new_key
                 ∧ child_name c' = CStr (Cell.text (child_name c))
                 ∧ child_age c' = child_age c
                 ∧ child_date_of_birth c' = child_date_of_birth c
                 ∧ child_phone_number c'
                   = CStr (Cell.text (Cell.fillna_str (child_phone_number c))).
Proof.
  intros Hsome Hchanged new_key Hnew.
  eexists _, _. split; [by apply update_submitted_saves|].
  rewrite apply_update_caregivers, apply_update_children. cbn zeta.
  unfold path_key. rewrite Hchanged. fold new_key. fold old_key.
  repeat split.
  - intros r [[Hr _]%list_elem_of_filter | ->%list_elem_of_singleton]%elem_of_app;
      [done | exact Hnew].
  - intros c [[Hc _]%list_elem_of_filter | Hc]%elem_of_app; [done|].
    apply list_elem_of_omap in Hc as (r & _ & Hr).
    unfold updated_child_row in Hr. destruct (negb _); [done|].
    injection Hr as <-. exact Hnew.
  - eexists. split; [apply elem_of_app; right; apply list_elem_of_here|done].
  - intros c Hc Hkey Hname.
    set (r := {| in_child_name := child_name c;
                 in_child_gender := Cell.fillna_str (child_gender c);
                 in_child_phone_number := Cell.fillna_str (child_phone_number c);
                 in_child_age := child_age c;
                 in_child_date_of_birth := child_date_of_birth c;
                 in_child_education_level := child_education_level c;
                 in_child_school_name := Cell.fillna_str (child_school_name c);
                 in_child_class_level := Cell.fillna_str (child_class_level c);
                 in_child_profession := Cell.fillna_str (child_profession c) |}).
    destruct (updated_child_row new_key now f r) as [c'|] eqn:Hc';
      unfold updated_child_row in Hc'; cbn [in_child_name r] in Hc';
      rewrite Hname in Hc'; [|done].
    exists c'. split.
    + apply elem_of_app. right. apply list_elem_of_omap. exists r. split.
      * unfold children_edit_data. apply list_elem_of_fmap. exists c.
        split; [done|]. by apply list_elem_of_filter.
      * unfold updated_child_row. cbn [in_child_name r]. by rewrite Hname.
    + cbn [negb] in Hc'. by injection Hc' as <-.
Qed.
(** Re-keying onto a key that another row already has: the edit removes
    the rows of the old key only, and the saved table has two rows under
    the new key. *)
Lemma update_onto_used_key user :
  caregiver_children ≠ [] →
  Cell.ne_str (caregiver_name caregiver_data) (edit_name f)
  || Cell.ne_str (phone_number caregiver_data) (edit_phone f) = true →
  let new_key := stable_key urandom (edit_name f) (edit_phone f) in
  new_key ≠ old_key →
  new_key ∈ caregiver_key <$> cg_df →
  ∃ cg' ch',
    update_submitted urandom now cg_df ch_df selected_caregiver f user = Saved cg' ch'
    ∧ ¬ unique_keys cg'.
Proof.
  intros Hsome Hchanged new_key Hnew Hused.
  eexists _, _. split; [by apply update_submitted_saves|].
  rewrite apply_update_caregivers. unfold path_key. rewrite Hchanged.
  fold new_key. fold old_key. unfold unique_keys. rewrite fmap_app.
  intros (_ & Hdisj & _)%NoDup_app. apply (Hdisj new_key).
  - apply list_elem_of_fmap in Hused as (r & Hr & Hin).
    apply list_elem_of_fmap. exists r. split; [done|].
    apply list_elem_of_filter. split; [|done]. by rewrite <- Hr.
  - apply list_elem_of_here.
Qed.

End Edit.

(** C2 at its failing input: Bob has no child row; the edit that changes
    his phone, and with it his derived key, stops on the unbound
    [edited_children], nothing is saved, and Bob's row stays under the old
    key. *)
Theorem edit_of_childless_caregiver_raises :
  stable_key Scenario.entropy "Bob" "333" ≠ "819a0d7307eb"
  ∧ caregiver_key <$> Scenario.after_bob.1 = ["3e2b0de89312"; "819a0d7307eb"]
  ∧ filter (λ c, ch_caregiver_key c = "819a0d7307eb") Scenario.after_bob.2 = []
  ∧ update_submitted Scenario.entropy "t3" Scenario.after_bob.1 Scenario.after_bob.2
      "Bob" (Scenario.edit "Bob" "333") id = Raised "NameError".
Proof.
  split; [by vm_compute|]. split; [by vm_compute|]. split; by vm_compute.
Qed.

(** The same edit on Ann, who has a child: the handler saves, and Tom is
    under the new key. *)
Example edit_of_ann_moves_tom :
  ∃ cg' c,
    update_submitted Scenario.entropy "t3" Scenario.after_bob.1 Scenario.after_bob.2
      "Ann" (Scenario.edit "Ann" "333") id = Saved cg' [c]
    ∧ caregiver_key <$> cg' = ["819a0d7307eb"; "bdc6ea2163de"]
    ∧ ch_caregiver_key c = "bdc6ea2163de" ∧ child_name c = CStr "Tom".
Proof. vm_compute. eauto 10. Qed.

(** ** Identity keys *)

Lemma strip_pipes_truthy raw :
  Py.truthy (Py.strip_pipes raw) = negb (Py.all_chars Py.is_pipe raw).
Proof. apply strip_by_truthy. Qed.

(** The deterministic branch: some character of ["{name}|{phone}"] is not
    a pipe, and the key is the first 12 hex digits of its SHA-1. *)
Lemma stable_key_digest urandom name phone :
  let raw := Py.lower (Py.strip name) +:+ "|" +:+ Py.digits_of phone in
  Py.all_chars Py.is_pipe raw = false →
  stable_key urandom name phone
  = Py.take 12 (Sha1.hexdigest (Py.encode_utf8 raw)).
Proof.
  intros raw H. unfold stable_key. fold raw. by rewrite strip_pipes_truthy, H.
Qed.

(** The random branch: every character is a pipe, and the key is the first
    12 hex digits of the SHA-1 of the random bytes. *)
Lemma stable_key_random urandom name phone :
  let raw := Py.lower (Py.strip name) +:+ "|" +:+ Py.digits_of phone in
  Py.all_chars Py.is_pipe raw = true →
  stable_key urandom name phone = Py.take 12 (Sha1.hexdigest urandom).
Proof.
  intros raw H. unfold stable_key. fold raw. by rewrite strip_pipes_truthy, H.
Qed.


(** A digit in the phone, or a name character other than the pipe, puts the
    call on the deterministic branch. *)
Lemma all_pipes_app s t :
  Py.all_chars Py.is_pipe (s +:+ t)
  = Py.all_chars Py.is_pipe s && Py.all_chars Py.is_pipe t.
Proof.
  induction s as [|c r IH]; [done|]. simpl. rewrite IH. by rewrite andb_assoc.
Qed.

Lemma digits_not_pipes s :
  Py.all_chars Py.is_pipe (Py.digits_of s) = negb (Py.truthy (Py.digits_of s)).
Proof.
  induction s as [|c r IH]; [done|]. cbn [Py.digits_of].
  destruct (Py.isdigit c) eqn:Hd; [|done]. cbn.
  assert (Py.is_pipe c = false) as ->; [|done].
  unfold Py.isdigit, Py.is_pipe in *. destruct (Py.code c =? 124) eqn:E; [|done].
  apply Z.eqb_eq in E. rewrite E in Hd. done.
Qed.

Lemma stable_key_with_digits urandom name phone :
  Py.truthy (Py.digits_of phone) = true →
  stable_key urandom name phone
  = Py.take 12 (Sha1.hexdigest (Py.encode_utf8
      (Py.lower (Py.strip name) +:+ "|" +:+ Py.digits_of phone))).
Proof.
  intros H. apply stable_key_digest.
  rewrite !all_pipes_app, digits_not_pipes, H. cbn. by rewrite !andb_false_r.
Qed.

(** The key has 12 characters. *)
Lemma hex_word_length w : String.length (Sha1.hex_word w) = 8%nat.
Proof. reflexivity. Qed.

Lemma take_length n s : (n ≤ String.length s)%nat → String.length (Py.take n s) = n.
Proof.
  revert s. induction n as [|n IH]; intros s H; [done|].
  destruct s as [|c r]; cbn in *; [lia|]. rewrite IH; lia.
Qed.

Lemma append_length s t :
  String.length (s +:+ t) = (String.length s + String.length t)%nat.
Proof. induction s as [|c r IH]; [done|]. simpl. by rewrite IH. Qed.

Lemma hexdigest_length msg : String.length (Sha1.hexdigest msg) = 40%nat.
Proof.
  unfold Sha1.hexdigest. cbv zeta. rewrite !append_length, !hex_word_length. done.
Qed.

Lemma stable_key_length urandom name phone :
  String.length (stable_key urandom name phone) = 12%nat.
Proof.
  unfold stable_key. destruct (Py.truthy _);
    apply take_length; rewrite hexdigest_length; lia.
Qed.

(** C5 at its failing input: the name ["|"] is not empty once trimmed and
    lowered, yet the call takes the random branch: the key is the digest
    of the random bytes, not of ["||"], and two calls with the same name
    and phone return different keys. *)
Theorem stable_key_of_pipe_name :
  Py.lower (Py.strip "|") = "|"
  ∧ Py.digits_of "" = ""
  ∧ (∀ urandom, stable_key urandom "|" "" = Py.take 12 (Sha1.hexdigest urandom))
  ∧ Py.take 12 (Sha1.hexdigest (Py.encode_utf8 "||")) = "c65f37b2cb1a"
  ∧ stable_key Scenario.entropy "|" "" = "e129f27c5103"
  ∧ stable_key Scenario.entropy' "|" "" = "52e0e9d4f46c".
Proof.
  split; [done|]. split; [done|]. split; [done|].
  split; [by vm_compute|]. split; by vm_compute.
Qed.

(** C9, as stated, fails: two calls for the blank identity that read two
    different 16-byte values from [os.urandom] return the same key. *)
Lemma blank_keys_collide :
  length Scenario.seed1 = 16%nat ∧ length Scenario.seed2 = 16%nat
  ∧ Scenario.seed1 ≠ Scenario.seed2
  ∧ stable_key Scenario.seed1 "" "" = stable_key Scenario.seed2 "" "".
Proof.
  split; [done|]. split; [done|]. split; [discriminate|]. by vm_compute.
Qed.

Lemma all_pipes_blank name phone :
  Py.lower (Py.strip name) = "" →
  Py.digits_of phone = "" →
  Py.all_chars Py.is_pipe
    (Py.lower (Py.strip name) +:+ "|" +:+ Py.digits_of phone) = true.
Proof. intros -> ->. reflexivity. Qed.

(** C9, as the code has it: when name and phone both normalise to the
    empty string the key is a function of the random bytes alone, the
    first 12 hex digits of their SHA-1; two calls get different keys
    exactly when those two prefixes differ. *)
Theorem blank_identity_key u1 u2 name1 phone1 name2 phone2 :
  Py.lower (Py.strip name1) = "" → Py.digits_of phone1 = "" →
  Py.lower (Py.strip name2) = "" → Py.digits_of phone2 = "" →
  stable_key u1 name1 phone1 = Py.take 12 (Sha1.hexdigest u1)
  ∧ (stable_key u1 name1 phone1 ≠ stable_key u2 name2 phone2
     ↔ Py.take 12 (Sha1.hexdigest u1) ≠ Py.take 12 (Sha1.hexdigest u2)).
Proof.
  intros Hn1 Hp1 Hn2 Hp2.
  rewrite (stable_key_random u1 name1 phone1) by by apply all_pipes_blank.
  rewrite (stable_key_random u2 name2 phone2) by by apply all_pipes_blank.
  done.
Qed.

Lemma blank_identity_key_witness :
  stable_key Scenario.entropy "  " "n/a" = Py.take 12 (Sha1.hexdigest Scenario.entropy)
  ∧ (stable_key Scenario.entropy "  " "n/a" ≠ stable_key Scenario.entropy' "" "-"
     ↔ Py.take 12 (Sha1.hexdigest Scenario.entropy)
       ≠ Py.take 12 (Sha1.hexdigest Scenario.entropy')).
Proof.
  apply (blank_identity_key Scenario.entropy Scenario.entropy' "  " "n/a" "" "-");
    reflexivity.
Defined.

(** ** Caregiver-shaped import *)

(** One turn of the import loop leaves the children table alone, whether
    the row is skipped, adds a caregiver or replaces one. *)
Lemma import_caregiver_row_children urandom now cg_df ch_df row :
  (import_caregiver_row urandom now (cg_df, ch_df) row).2 = ch_df.
Proof. unfold import_caregiver_row. by destruct (negb _). Qed.

(** C10: the caregiver import hands [save_data] the children table it
    loaded, row for row, whatever the imported rows do to the caregivers
    table. *)
Theorem import_caregiver_data_keeps_children urandom utcnow cg_df ch_df import_df :
  (import_caregiver_data urandom utcnow cg_df ch_df import_df).2 = ch_df.
Proof.
  unfold import_caregiver_data. generalize 0%nat. revert cg_df.
  induction import_df as [|row rows IH]; intros cg_df i; [done|].
  cbn [import_caregiver_rows].
  rewrite (surjective_pairing (import_caregiver_row _ _ _ row)),
          import_caregiver_row_children.
  apply IH.
Qed.

(** An imported row with Ann's name and a new phone adds a row under the
    new key next to Ann's old row; Tom stays under the old key. *)
Example import_ann_with_new_phone :
  let row := ImportRow (CStr "Ann") (CStr "333") CNone CNone None None CNone CNone
                       CNone CNone None in
  let '(cg', ch') :=
    import_caregiver_data (λ _, Scenario.entropy) (λ _, "t3")
      Scenario.after_ann.1 Scenario.after_ann.2 [row] in
  caregiver_key <$> cg' = ["3e2b0de89312"; "bdc6ea2163de"]
  ∧ ch_caregiver_key <$> ch' = ["3e2b0de89312"]
  ∧ ch' = Scenario.after_ann.2.
Proof. by vm_compute. Qed.

(** ** Unverified names *)

(** C7 at its failing input: against an empty collection every candidate
    passes the duplicate check, which looks at the stored collection only,
    and three records are added, two of them for the same name up to
    case. *)
Theorem bulk_upload_amaka clock now file_name :
  let '(updated, added) :=
    Unverified.add_to_unverified_list clock now file_name []
      [CStr "Amaka"; CStr "amaka "; CStr "Bayo"] in
  added = 3%nat
  ∧ Unverified.name <$> updated = ["Amaka"; "amaka"; "Bayo"]
  ∧ Py.lower "Amaka" = Py.lower "amaka".
Proof. done. Qed.

(** Against a collection that holds the name, the variant is skipped. *)
Example bulk_upload_known_name clock now file_name :
  Unverified.add_to_unverified_list clock now file_name [Scenario.verified_row]
    [CStr "amaka "; CStr "AMAKA"]
  = ([Scenario.verified_row], 0%nat).
Proof. done. Qed.

(** C8, as stated, fails: "Save Changes" stores the status the editor row
    carries, here [pending] over [verified]. *)
Lemma save_changes_reopens_verified :
  ¬ Unverified.terminal_under (Unverified.SaveChanges [Scenario.reopened_row]).
Proof.
  intros H.
  destruct (H [Scenario.verified_row] 0%nat Scenario.verified_row)
    as (r' & Hr & Hs); [done|done|].
  vm_compute in Hr. injection Hr as <-. discriminate Hs.
Qed.

(** So do the bulk actions: with the filter on [verified], "Mark All
    Filtered as Rejected" turns a verified record into a rejected one. *)
Example bulk_action_rejects_verified :
  Unverified.status_of <$>
    Unverified.run (Unverified.MarkAllFiltered Unverified.rejected
                      (Some Unverified.verified) (λ _, true) "d2")
                   [Scenario.verified_row; Scenario.pending_row]
  = [Unverified.rejected; Unverified.pending].
Proof. done. Qed.

(** A pending row has its two buttons. *)
Lemma press_pending s unverified_df idx now r :
  unverified_df !! idx = Some r →
  Unverified.status_of r = Unverified.pending →
  Unverified.press s unverified_df idx now
  = Some (<[idx := Unverified.decide_row r s now "Manual Verification"]> unverified_df).
Proof. intros Hr Hs. unfold Unverified.press. by rewrite Hr, Hs. Qed.

(** A row that is not pending has none. *)
Lemma press_decided s unverified_df idx now r :
  unverified_df !! idx = Some r →
  Unverified.status_of r ≠ Unverified.pending →
  Unverified.press s unverified_df idx now = None.
Proof.
  intros Hr Hs. unfold Unverified.press. rewrite Hr. by rewrite bool_decide_eq_false_2.
Qed.

(** C8, as the code has it: a Verify or Reject button changes one record,
    the pending one it is shown for, to the button's status with date and
    verifier; every record that is verified or rejected, and every other
    record, is stored as it was. *)
Theorem buttons_change_pending_only s unverified_df idx now i r :
  unverified_df !! i = Some r →
  let stored := default unverified_df (Unverified.press s unverified_df idx now) in
  (Unverified.status_of r ≠ Unverified.pending → stored !! i = Some r)
  ∧ (i ≠ idx → stored !! i = Some r)
  ∧ (Unverified.status_of r = Unverified.pending → i = idx →
     stored !! i = Some (Unverified.decide_row r s now "Manual Verification")).
Proof.
  intros Hr stored. subst stored. unfold Unverified.press.
  destruct (unverified_df !! idx) as [r0|] eqn:H0; cycle 1.
  { cbv [default from_option id]. repeat split; try done. intros _ ->. congruence. }
  destruct (bool_decide (Unverified.status_of r0 = Unverified.pending)) eqn:Hb;
    cycle 1.
  { apply bool_decide_eq_false in Hb. cbv [default from_option id]. repeat split; try done.
    intros Hs ->. congruence. }
  apply bool_decide_eq_true in Hb. cbv [default from_option id].
  assert (idx < length unverified_df)%nat by by eapply lookup_lt_Some.
  split; [|split].
  - intros Hs. destruct (decide (i = idx)) as [->|Hne]; [congruence|].
    by rewrite list_lookup_insert_ne.
  - intros Hne. by rewrite list_lookup_insert_ne.
  - intros _ ->. rewrite list_lookup_insert_eq by done. congruence.
Qed.

Lemma buttons_change_pending_only_witness :
  let df := [Scenario.verified_row; Scenario.pending_row] in
  let stored := default df (Unverified.verify_button df 1%nat "d2") in
  (Unverified.status_of Scenario.verified_row ≠ Unverified.pending →
   stored !! 0%nat = Some Scenario.verified_row)
  ∧ (0%nat ≠ 1%nat → stored !! 0%nat = Some Scenario.verified_row)
  ∧ (Unverified.status_of Scenario.verified_row = Unverified.pending →
     0%nat = 1%nat →
     stored !! 0%nat
     = Some (Unverified.decide_row Scenario.verified_row Unverified.verified "d2"
               "Manual Verification")).
Proof.
  apply (buttons_change_pending_only Unverified.verified
           [Scenario.verified_row; Scenario.pending_row] 1%nat "d2" 0%nat
           Scenario.verified_row).
  reflexivity.
Defined.

(** The verify button on Bayo's pending row. *)
Example verify_bayo :
  Unverified.status_of <$>
    Unverified.run (Unverified.Verify 1%nat "d2")
                   [Scenario.verified_row; Scenario.pending_row]
  = [Unverified.verified; Unverified.verified].
Proof. done. Qed.

(** * Further properties of the code *)

(** ** Shape of the identity key *)

Lemma land_15_bounds x : 0 ≤ Z.land x 15 ≤ 15.
Proof.
  assert (Z.land x 15 = x mod 16) as ->.
  { change 15 with (Z.ones 4). by rewrite Z.land_ones. }
  pose proof (Z.mod_pos_bound x 16). lia.
Qed.

Lemma hex_digit_lower v : 0 ≤ v ≤ 15 → is_lower_hex (Sha1.hex_digit v) = true.
Proof.
  intros Hv. assert (∃ n : nat, v = Z.of_nat n ∧ (n < 16)%nat) as (n & -> & Hn).
  { exists (Z.to_nat v). destruct Hv. split; lia. }
  do 16 (destruct n as [|n]; [reflexivity|]). lia.
Qed.

Lemma hex_word_lower w : Py.all_chars is_lower_hex (Sha1.hex_word w) = true.
Proof.
  unfold Sha1.hex_word. cbn [seq map fmap list_fmap string_of_list_ascii Py.all_chars].
  rewrite !hex_digit_lower by apply land_15_bounds. reflexivity.
Qed.

Lemma all_chars_app p s t :
  Py.all_chars p (s +:+ t) = Py.all_chars p s && Py.all_chars p t.
Proof.
  induction s as [|c r IH]; [done|]. simpl. rewrite IH. by rewrite andb_assoc.
Qed.

Lemma all_chars_take p n s :
  Py.all_chars p s = true → Py.all_chars p (Py.take n s) = true.
Proof.
  revert s. induction n as [|n IH]; intros [|c r]; simpl; try done.
  intros [Hc Hr]%andb_prop. rewrite Hc. by apply IH.
Qed.

Lemma hexdigest_lower msg : Py.all_chars is_lower_hex (Sha1.hexdigest msg) = true.
Proof.
  unfold Sha1.hexdigest. cbv zeta. by rewrite !all_chars_app, !hex_word_lower.
Qed.

(** X1: whatever the name, the phone and the random bytes, [stable_key]
    returns exactly 12 characters, each a lowercase hexadecimal digit. *)
Theorem stable_key_is_12_hex urandom name phone :
  String.length (stable_key urandom name phone) = 12%nat
  ∧ Py.all_chars is_lower_hex (stable_key urandom name phone) = true.
Proof.
  split; [apply stable_key_length|].
  unfold stable_key. destruct (Py.truthy _); apply all_chars_take, hexdigest_lower.
Qed.

(** X2: when the phone has a digit, the key does not depend on the random
    bytes, on the case of the name or the blanks around it, or on the
    characters of the phone that are not digits. *)
Theorem stable_key_ignores_formatting u1 u2 name1 phone1 name2 phone2 :
  Py.lower (Py.strip name1) = Py.lower (Py.strip name2) →
  Py.digits_of phone1 = Py.digits_of phone2 →
  Py.truthy (Py.digits_of phone1) = true →
  stable_key u1 name1 phone1 = stable_key u2 name2 phone2.
Proof.
  intros Hn Hp Hd. rewrite (stable_key_with_digits u1) by done.
  rewrite Hp in Hd. rewrite (stable_key_with_digits u2) by done.
  by rewrite Hn, Hp.
Qed.

Lemma stable_key_ignores_formatting_witness :
  stable_key Scenario.entropy "Jane Doe" "0803-111-2222"
  = stable_key Scenario.entropy' "  JANE doe " "(0803) 111 2222".
Proof.
  apply (stable_key_ignores_formatting Scenario.entropy Scenario.entropy'
           "Jane Doe" "0803-111-2222" "  JANE doe " "(0803) 111 2222");
    reflexivity.
Defined.

(** ** The form for a new caregiver *)

Lemma filter_all {A} (P : A → Prop) `{∀ x, Decision (P x)} (l : list A) :
  Forall P l → filter P l = l.
Proof.
  induction 1 as [|x l Hx _ IH]; [done|]. by rewrite filter_cons_True, IH.
Qed.

Lemma filter_none {A} (P : A → Prop) `{∀ x, Decision (P x)} (l : list A) :
  Forall (λ x, ¬ P x) l → filter P l = [].
Proof.
  induction 1 as [|x l Hx _ IH]; [done|]. by rewrite filter_cons_False.
Qed.

Lemma new_child_rows_key key now f rows :
  Forall (λ c, ch_caregiver_key c = key) (omap (new_child_row key now f) rows).
Proof.
  apply Forall_forall. intros c (r & _ & Hr)%list_elem_of_omap.
  unfold new_child_row in Hr. destruct (negb _); [done|]. by injection Hr as <-.
Qed.

Lemma filter_ne_twice {A} (key_of : A → string) (key : string) (l : list A) :
  filter (λ r, key_of r ≠ key) (filter (λ r, key_of r ≠ key) l)
  = filter (λ r, key_of r ≠ key) l.
Proof. by apply list_filter_filter_l. Qed.


(** X4: a save through the form leaves the rows of every other key as they
    were, in both tables and in their order. *)
Theorem upsert_keeps_other_keys urandom now cg_df ch_df f :
  let key := stable_key urandom (c_name f) (c_phone f) in
  let saved := upsert_caregiver urandom now cg_df ch_df f in
  filter (λ r, caregiver_key r ≠ key) saved.1
  = filter (λ r, caregiver_key r ≠ key) cg_df
  ∧ filter (λ c, ch_caregiver_key c ≠ key) saved.2
    = filter (λ c, ch_caregiver_key c ≠ key) ch_df.
Proof.
  intros key saved. subst saved. rewrite upsert_caregivers, upsert_children.
  cbn zeta. fold key. rewrite !filter_app.
  rewrite (filter_ne_twice caregiver_key), (filter_ne_twice ch_caregiver_key).
  split.
  - rewrite filter_cons_False by (intros H; by apply H).
    simpl. by rewrite app_nil_r.
  - rewrite (filter_none _ (omap _ _)); [by rewrite app_nil_r|].
    eapply Forall_impl; [apply new_child_rows_key|]. intros c Hc Hne. by apply Hne.
Qed.



(** X6: the form handler writes exactly when the caregiver name is not
    empty and no editor row has data without a child name, and then it
    writes the upsert.  Otherwise it stops: on "Caregiver Name is required."
    for an empty name, else on "Child name is required in: " followed by
    "Row i+1" for the index label i of every row with data and no name,
    joined by ", ".  It never stops for a phone number and never raises. *)
Theorem caregiver_form_submitted_outcome urandom now cg_df ch_df f :
  match caregiver_form_submitted urandom now cg_df ch_df f with
  | Saved cg ch =>
      Py.truthy (c_name f) = true
      ∧ existsb missing_child_name (edited f) = false
      ∧ (cg, ch) = upsert_caregiver urandom now cg_df ch_df f
  | Stopped msg =>
      (Py.truthy (c_name f) = false ∧ msg = "Caregiver Name is required.")
      ∨ (Py.truthy (c_name f) = true
         ∧ existsb missing_child_name (edited f) = true
         ∧ msg = "Child name is required in: "
                 +:+ String.concat ", "
                       ((λ ir, "Row " +:+ pretty (S ir.1))
                          <$> filter (λ ir, missing_child_name ir.2 = true)
                                (imap (λ i r, (edited_label f i, r)) (edited f))))
  | Raised _ | NotShown => False
  end.
Proof.
  unfold caregiver_form_submitted.
  destruct (Py.truthy (c_name f)); cbn [negb]; [|by left].
  pose proof (missing_child_names_nil (edited_label f) (edited f)) as Hnil.
  rewrite invalid_child_phones_nil.
  destruct (missing_child_names (edited_label f) (edited f)) as [|name names] eqn:E.
  - destruct (upsert_caregiver urandom now cg_df ch_df f).
    split; [done|]. split; [by apply Hnil|done].
  - right. split; [done|]. split.
    + destruct (existsb missing_child_name (edited f)); [done|].
      discriminate (proj2 Hnil eq_refl).
    + by rewrite <- E.
Qed.

(** Two rows with an age and no name stop the save, and the message names
    them by their place in the editor. *)
Example caregiver_form_submitted_rows :
  caregiver_form_submitted Scenario.entropy "t1" [] []
    (Scenario.form "Ann" "111"
       [Scenario.tom; Scenario.unnamed; Scenario.sam; Scenario.unnamed])
  = Stopped "Child name is required in: Row 2, Row 4".
Proof. by vm_compute. Qed.

(** ** An edit that keeps name and phone *)

Lemma updated_child_rows_key key now f rows :
  Forall (λ c, ch_caregiver_key c = key) (omap (updated_child_row key now f) rows).
Proof.
  apply Forall_forall. intros c (r & _ & Hr)%list_elem_of_omap.
  unfold updated_child_row in Hr. destruct (negb _); [done|]. by injection Hr as <-.
Qed.

Lemma updated_child_rows_length key now f l :
  children_named l →
  length (omap (updated_child_row key now f) (children_edit_data l)) = length l.
Proof.
  induction 1 as [|c l Hc _ IH]; [done|].
  cbn [children_edit_data fmap list_fmap omap list_omap].
  unfold updated_child_row at 1. cbn [in_child_name]. rewrite Hc. cbn [negb length].
  f_equal. exact IH.
Qed.

Lemma children_named_filter (P : child → Prop) `{∀ c, Decision (P c)} l :
  children_named l → children_named (filter P l).
Proof.
  unfold children_named. rewrite !Forall_forall.
  intros Hl c [_ Hc]%list_elem_of_filter. by apply Hl.
Qed.

Lemma ne_str_same s : Cell.ne_str (CStr s) s = false.
Proof. cbn. by rewrite String.eqb_refl. Qed.

(** X7: an edit that leaves the caregiver's name and phone as stored, with
    the children editor untouched, removes no child row and appends one row
    per child of the caregiver: the stored children stay in front, and the
    caregiver's child rows are twice as many as before.  The stored phone is
    a text cell equal to the submitted text, as [load_data] returns it for a
    phone with a character that is not a digit; a missing phone, or one
    read back as a number, differs from every submitted text and takes the
    other branch. *)
Theorem edit_without_rekey_doubles_children urandom now cg_df ch_df
    selected_caregiver f caregiver_data others :
  filter (λ r, Cell.eq_str (caregiver_name r) selected_caregiver = true) cg_df
  = caregiver_data :: others →
  Py.truthy selected_caregiver = true →
  Py.truthy (edit_name f) = true →
  caregiver_name caregiver_data = CStr (edit_name f) →
  phone_number caregiver_data = CStr (edit_phone f) →
  child_count ch_df (caregiver_key caregiver_data) ≠ 0%nat →
  children_named ch_df →
  ∃ cg' added,
    update_submitted urandom now cg_df ch_df selected_caregiver f id
    = Saved cg' (ch_df ++ added)
    ∧ child_count (ch_df ++ added) (caregiver_key caregiver_data)
      = (2 * child_count ch_df (caregiver_key caregiver_data))%nat.
Proof.
  intros Hsel Hchosen Hnamed Hname Hphone Hsome Hch.
  set (key := caregiver_key caregiver_data) in *.
  set (children := filter (λ r, ch_caregiver_key r = key) ch_df).
  assert (children ≠ []) as Hne.
  { intros E. apply Hsome. unfold child_count. fold children. by rewrite E. }
  pose proof (update_submitted_saves urandom now cg_df ch_df selected_caregiver f
                caregiver_data others Hsel Hchosen Hnamed id Hne) as Hsaved.
  cbv zeta in Hsaved. rewrite apply_update_children in Hsaved. cbv zeta in Hsaved.
  unfold path_key in Hsaved. rewrite Hname, Hphone, !ne_str_same in Hsaved.
  cbn [orb] in Hsaved. fold key in Hsaved. fold children in Hsaved.
  unfold id in Hsaved.
  eexists _, _. split; [exact Hsaved|].
  unfold child_count. rewrite filter_app, length_app. fold children.
  rewrite (filter_all _ (omap _ _)) by apply updated_child_rows_key.
  rewrite updated_child_rows_length by by apply children_named_filter.
  lia.
Qed.

Lemma edit_without_rekey_doubles_children_witness :
  let loaded := Workbook.load_data Scenario.jane_workbook in
  ∃ cg' added,
    update_submitted Scenario.entropy "t3" loaded.1 loaded.2
      "Jane Doe" (Scenario.edit "Jane Doe" "0803-111-2222") id
    = Saved cg' (loaded.2 ++ added)
    ∧ child_count (loaded.2 ++ added) "a00da052508c" = 2%nat.
Proof.
  apply (edit_without_rekey_doubles_children Scenario.entropy "t3"
           (Workbook.load_data Scenario.jane_workbook).1
           (Workbook.load_data Scenario.jane_workbook).2
           "Jane Doe" (Scenario.edit "Jane Doe" "0803-111-2222")
           (Workbook.load_caregiver
              (new_caregiver_row "a00da052508c" "t1"
                 (Scenario.form "Jane Doe" "0803-111-2222" [Scenario.tom])))
           []).
  - vm_compute. reflexivity.
  - reflexivity.
  - reflexivity.
  - reflexivity.
  - reflexivity.
  - vm_compute. discriminate.
  - vm_compute. repeat constructor.
Defined.

(** The workbook of the example holds Tom once before the edit and twice
    after it, under the key that Jane Doe keeps. *)
Example edit_without_rekey_jane :
  let loaded := Workbook.load_data Scenario.jane_workbook in
  let saved :=
    Scenario.tables
      (update_submitted Scenario.entropy "t3" loaded.1 loaded.2
         "Jane Doe" (Scenario.edit "Jane Doe" "0803-111-2222") id) in
  phone_number <$> loaded.1 = [CStr "0803-111-2222"]
  ∧ (λ c, (ch_caregiver_key c, child_name c)) <$> loaded.2
    = [("a00da052508c", CStr "Tom")]
  ∧ caregiver_key <$> saved.1 = ["a00da052508c"]
  ∧ (λ c, (ch_caregiver_key c, child_name c)) <$> saved.2
    = [("a00da052508c", CStr "Tom"); ("a00da052508c", CStr "Tom")].
Proof. by vm_compute. Qed.

(** ** Deleting a caregiver *)



(** With no caregiver chosen the delete form is not shown. *)
Example delete_nothing_chosen cg_df ch_df :
  delete_confirm cg_df ch_df "" = NotShown.
Proof. reflexivity. Qed.

(** ** Child-shaped import *)

Lemma filter_bool_nil {A} (b : A → bool) (l : list A) :
  filter (λ r, b r = true) l = [] ↔ existsb b l = false.
Proof.
  induction l as [|x l IH]; [done|]. rewrite filter_cons. cbn [existsb].
  destruct (b x) eqn:Hx.
  - rewrite decide_True by done. cbn. split; intros [=].
  - rewrite decide_False by (by intros [=]). by cbn.
Qed.

Lemma import_child_row_caregivers now s row :
  st_cg_df (import_child_row now s row) = st_cg_df s.
Proof.
  unfold import_child_row. destruct (negb _); [done|]. by destruct (filter _ _).
Qed.

Lemma import_child_rows_caregivers utcnow i s rows :
  st_cg_df (import_child_rows utcnow i s rows) = st_cg_df s.
Proof.
  revert i s. induction rows as [|row rows IH]; intros i s; [done|].
  cbn [import_child_rows]. by rewrite IH, import_child_row_caregivers.
Qed.

Lemma import_child_row_origin now s row c :
  c ∈ st_ch_df (import_child_row now s row) →
  c ∈ st_ch_df s
  ∨ (ch_caregiver_key c ∈ caregiver_key <$> st_cg_df s
     ∧ Py.truthy (Cell.text (child_name c)) = true).
Proof.
  unfold import_child_row.
  destruct (Py.truthy (Cell.text (ci_child_name row))) eqn:Hn; cbn [negb]; [|by left].
  destruct (filter _ (st_cg_df s)) as [|first rest] eqn:Hf; [by left|].
  cbn [st_ch_df]. intros [[_ Hc]%list_elem_of_filter | ->%list_elem_of_singleton]%elem_of_app;
    [by left|right].
  cbn [ch_caregiver_key child_name]. split.
  - apply list_elem_of_fmap_2.
    assert (first ∈ filter (λ r, Cell.eq_str (caregiver_name r)
                                   (Cell.text (ci_caregiver_name row)) = true)
                           (st_cg_df s)) as Hin by (rewrite Hf; apply list_elem_of_here).
    by apply list_elem_of_filter in Hin as [_ ?].
  - unfold Cell.text at 1, Cell.or_empty. cbn [Cell.truthy]. rewrite Hn. cbn [Cell.str].
    unfold Cell.text. by rewrite strip_idem.
Qed.

Lemma import_child_rows_origin utcnow rows i s c :
  c ∈ st_ch_df (import_child_rows utcnow i s rows) →
  c ∈ st_ch_df s
  ∨ (ch_caregiver_key c ∈ caregiver_key <$> st_cg_df s
     ∧ Py.truthy (Cell.text (child_name c)) = true).
Proof.
  revert i s. induction rows as [|row rows IH]; intros i s Hc; [by left|].
  cbn [import_child_rows] in Hc. apply IH in Hc.
  rewrite import_child_row_caregivers in Hc.
  destruct Hc as [Hc|Hc]; [|by right]. by apply import_child_row_origin in Hc.
Qed.

(** X9: the child import changes no caregiver row, and every child row in
    the saved table is a row that was there or a row with a name under the
    key of an existing caregiver. *)
Theorem import_child_data_origin utcnow cg_df ch_df import_df :
  let s := import_child_data utcnow cg_df ch_df import_df in
  st_cg_df s = cg_df
  ∧ ∀ c, c ∈ st_ch_df s →
         c ∈ ch_df
         ∨ (ch_caregiver_key c ∈ caregiver_key <$> cg_df
            ∧ Py.truthy (Cell.text (child_name c)) = true).
Proof.
  unfold import_child_data. cbv zeta.
  split; [by rewrite import_child_rows_caregivers|].
  intros c Hc. by apply import_child_rows_origin in Hc.
Qed.



Lemma import_child_row_skip now s row :
  importable (st_cg_df s) row = false →
  st_ch_df (import_child_row now s row) = st_ch_df s
  ∧ length (st_warnings (import_child_row now s row))
    = (length (st_warnings s)
       + if caregiver_missing (st_cg_df s) row then 1 else 0)%nat.
Proof.
  unfold importable, caregiver_missing, import_child_row.
  destruct (Py.truthy (Cell.text (ci_child_name row))); cbn [negb andb]; [|by split].
  intros Hnone. rewrite Hnone. apply filter_bool_nil in Hnone. rewrite Hnone.
  cbn [st_ch_df st_warnings negb]. rewrite length_app. by split.
Qed.

Lemma import_child_row_warnings now s row :
  length (st_warnings (import_child_row now s row))
  = (length (st_warnings s)
     + if caregiver_missing (st_cg_df s) row then 1 else 0)%nat.
Proof.
  destruct (importable (st_cg_df s) row) eqn:Hi;
    [|by apply import_child_row_skip].
  unfold importable, caregiver_missing, import_child_row in *.
  apply andb_prop in Hi as [-> Hsome]. rewrite Hsome. cbn [negb andb].
  destruct (filter _ (st_cg_df s)) eqn:Hf.
  - apply filter_bool_nil in Hf. congruence.
  - cbn [st_warnings]. lia.
Qed.

(** X11: the child import reports one warning for every row that has a
    child name but whose caregiver name is the name of no caregiver row,
    and no other warning. *)
Theorem import_child_data_warnings utcnow cg_df ch_df import_df :
  length (st_warnings (import_child_data utcnow cg_df ch_df import_df))
  = length (filter (λ row, caregiver_missing cg_df row = true) import_df).
Proof.
  unfold import_child_data.
  assert (∀ rows i s,
            st_cg_df s = cg_df →
            length (st_warnings (import_child_rows utcnow i s rows))
            = (length (st_warnings s)
               + length (filter (λ row, caregiver_missing cg_df row = true) rows))%nat)
    as Hloop.
  { induction rows as [|row rows IH]; intros i s Hs; [cbn; lia|].
    cbn [import_child_rows]. rewrite IH by by rewrite import_child_row_caregivers.
    rewrite import_child_row_warnings, Hs, filter_cons.
    destruct (caregiver_missing cg_df row); [rewrite decide_True by done|
                                             rewrite decide_False by done];
      cbn [length]; lia. }
  by rewrite Hloop.
Qed.

(** X12: rows that fail the name test and rows whose caregiver is not
    found change nothing: an import made only of such rows saves the
    children table it loaded.  The name test is on the text
    [str(row.get("child_name") or "").strip()]: a name of white space fails
    it, an empty cell of the file, read as NaN, passes it as "nan". *)
Theorem import_child_data_all_skipped utcnow cg_df ch_df import_df :
  Forall (λ row, importable cg_df row = false) import_df →
  st_ch_df (import_child_data utcnow cg_df ch_df import_df) = ch_df.
Proof.
  unfold import_child_data. intros Hall.
  assert (∀ rows i s,
            st_cg_df s = cg_df →
            Forall (λ row, importable cg_df row = false) rows →
            st_ch_df (import_child_rows utcnow i s rows) = st_ch_df s) as Hloop.
  { induction rows as [|row rows IH]; intros i s Hs Hrows; [done|].
    apply Forall_cons in Hrows as [Hrow Hrows]. cbn [import_child_rows].
    rewrite IH by (by rewrite ?import_child_row_caregivers).
    rewrite <- Hs in Hrow. by apply import_child_row_skip. }
  by rewrite Hloop.
Qed.

Lemma import_child_data_all_skipped_witness :
  let loaded := Workbook.load_data Scenario.jane_workbook in
  st_ch_df (import_child_data (λ _, "t2") loaded.1 loaded.2
              [ChildImportRow (CStr "Sam") (CStr "Zoe") CNaN CNaN None None
                              CNaN CNaN CNaN CNaN;
               ChildImportRow (CStr "  ") (CStr "Jane Doe") CNaN
                              (CStr "0805-000-1111") (Some 5) None
                              CNaN CNaN CNaN CNaN])
  = loaded.2.
Proof.
  apply (import_child_data_all_skipped (λ _, "t2")
           (Workbook.load_data Scenario.jane_workbook).1
           (Workbook.load_data Scenario.jane_workbook).2).
  repeat constructor.
Defined.

(** A line whose child name is empty in the file is not skipped: the cell
    is NaN, and Jane Doe gets a child named "nan". *)
Example import_child_data_empty_name :
  let loaded := Workbook.load_data Scenario.jane_workbook in
  child_name
    <$> st_ch_df (import_child_data (λ _, "t2") loaded.1 loaded.2
                    [ChildImportRow CNaN (CStr "Jane Doe") CNaN
                                    (CStr "0805-000-1111") (Some 5) None
                                    CNaN CNaN CNaN CNaN])
  = [CStr "Tom"; CStr "nan"].
Proof. by vm_compute. Qed.

(** X13: the Excel branch of the child import never changes the workbook:
    it raises on the first row that has a child name and a caregiver, and
    when there is no such row it saves the two tables it loaded. *)
Theorem import_child_rows_excel_outcome cg_df ch_df import_df :
  import_child_rows_excel cg_df ch_df import_df
  = if existsb (importable cg_df) import_df then Raised "NameError"
    else Saved cg_df ch_df.
Proof.
  induction import_df as [|row rows IH]; [done|].
  cbn [import_child_rows_excel existsb]. unfold importable at 1.
  destruct (Py.truthy (Cell.text (ci_child_name row))); cbn [negb andb orb]; [|done].
  destruct (filter _ cg_df) eqn:Hf.
  - apply filter_bool_nil in Hf. by rewrite Hf.
  - destruct (existsb _ cg_df) eqn:He; [done|].
    apply filter_bool_nil in He. congruence.
Qed.

(** ** What every write keeps *)

Lemma stored_form urandom now cg_df ch_df f :
  stored (caregiver_form_submitted urandom now cg_df ch_df f) (cg_df, ch_df)
  = (cg_df, ch_df)
  ∨ stored (caregiver_form_submitted urandom now cg_df ch_df f) (cg_df, ch_df)
    = upsert_caregiver urandom now cg_df ch_df f.
Proof.
  unfold caregiver_form_submitted.
  destruct (negb _); [by left|].
  destruct (missing_child_names _ _); [|by left].
  destruct (invalid_child_phones _ _); [|by left].
  right. by destruct (upsert_caregiver urandom now cg_df ch_df f).
Qed.

Lemma stored_update urandom now cg_df ch_df selected_caregiver f user :
  stored (update_submitted urandom now cg_df ch_df selected_caregiver f user)
         (cg_df, ch_df) = (cg_df, ch_df)
  ∨ ∃ cd rows,
      stored (update_submitted urandom now cg_df ch_df selected_caregiver f user)
             (cg_df, ch_df)
      = apply_update urandom now cg_df ch_df cd f rows.
Proof.
  unfold update_submitted.
  destruct (negb (Py.truthy selected_caregiver)); [by left|].
  destruct (filter _ cg_df) as [|cd others]; [by left|].
  destruct (negb (Py.truthy (edit_name f))); [by left|].
  destruct (filter _ ch_df) as [|c l]; [by left|].
  destruct (existsb _ _); [by left|].
  right. exists cd, (user (children_edit_data (c :: l))).
  by destruct (apply_update _ _ _ _ _ _ _).
Qed.

Lemma stored_delete cg_df ch_df delete_caregiver :
  stored (delete_confirm cg_df ch_df delete_caregiver) (cg_df, ch_df) = (cg_df, ch_df)
  ∨ ∃ key,
      stored (delete_confirm cg_df ch_df delete_caregiver) (cg_df, ch_df)
      = (filter (λ r, caregiver_key r ≠ key) cg_df,
         filter (λ r, ch_caregiver_key r ≠ key) ch_df).
Proof.
  unfold delete_confirm. destruct (negb _); [by left|].
  destruct (delete_key _ _) as [key|]; [|by left]. right. by exists key.
Qed.

Lemma stored_excel cg_df ch_df import_df :
  stored (import_child_rows_excel cg_df ch_df import_df) (cg_df, ch_df) = (cg_df, ch_df).
Proof.
  induction import_df as [|row rows IH]; [done|]. cbn [import_child_rows_excel].
  destruct (negb _); [done|]. by destruct (filter _ cg_df).
Qed.


Lemma migrate_stored cg_df ch_df :
  (migrate_child_phone_numbers cg_df ch_df).1
  = (cg_df, (migrate_rows (caregiver_phones cg_df) ch_df 0).1).
Proof.
  unfold migrate_child_phone_numbers.
  pose proof (migrate_rows_unchanged (caregiver_phones cg_df) ch_df 0) as Hsame.
  destruct (migrate_rows _ ch_df 0) as [ch_new n] eqn:E. cbn [fst snd] in *.
  destruct n as [|n]; cbn; [by rewrite Hsame|done].
Qed.







Lemma import_caregiver_rows_children urandom utcnow rows i cg_df ch_df :
  (import_caregiver_rows urandom utcnow i (cg_df, ch_df) rows).2 = ch_df.
Proof.
  revert i cg_df. induction rows as [|row rows IH]; intros i cg_df; [done|].
  cbn [import_caregiver_rows].
  rewrite (surjective_pairing (import_caregiver_row _ _ _ row)),
          import_caregiver_row_children.
  apply IH.
Qed.




Lemma text_named_text (c : child) (x : cell) :
  child_name c = CStr (Cell.text x) →
  Py.truthy (Cell.text x) = true →
  text_named c.
Proof.
  intros Hc Ht. exists (Cell.text x). split; [done|]. split; [|done].
  unfold Cell.text. apply strip_idem.
Qed.

Lemma new_child_rows_text_named key now f (rows : list child_input) c :
  c ∈ omap (new_child_row key now f) rows → text_named c.
Proof.
  intros (r & _ & Hr)%list_elem_of_omap. unfold new_child_row in Hr.
  destruct (Py.truthy (Cell.text (in_child_name r))) eqn:Hn; [|done].
  cbn [negb] in Hr. injection Hr as <-. by apply (text_named_text _ (in_child_name r)).
Qed.

Lemma updated_child_rows_text_named key now f (rows : list child_input) c :
  c ∈ omap (updated_child_row key now f) rows → text_named c.
Proof.
  intros (r & _ & Hr)%list_elem_of_omap. unfold updated_child_row in Hr.
  destruct (Py.truthy (Cell.text (in_child_name r))) eqn:Hn; [|done].
  cbn [negb] in Hr. injection Hr as <-. by apply (text_named_text _ (in_child_name r)).
Qed.

Lemma import_child_row_text_named now s row c :
  c ∈ st_ch_df (import_child_row now s row) → c ∈ st_ch_df s ∨ text_named c.
Proof.
  unfold import_child_row.
  destruct (Py.truthy (Cell.text (ci_child_name row))) eqn:Hn; cbn [negb]; [|by left].
  destruct (filter _ (st_cg_df s)) as [|first rest]; [by left|].
  cbn [st_ch_df].
  intros [[_ Hc]%list_elem_of_filter | ->%list_elem_of_singleton]%elem_of_app;
    [by left|right].
  by apply (text_named_text _ (ci_child_name row)).
Qed.

Lemma import_child_rows_text_named utcnow rows i s c :
  c ∈ st_ch_df (import_child_rows utcnow i s rows) → c ∈ st_ch_df s ∨ text_named c.
Proof.
  revert i s. induction rows as [|row rows IH]; intros i s Hc; [by left|].
  cbn [import_child_rows] in Hc. apply IH in Hc as [Hc|Hc]; [|by right].
  by apply import_child_row_text_named in Hc.
Qed.

Lemma migrate_rows_map phones rows n :
  migrate_rows phones rows n
  = ((λ row, match fill_phone phones row with
             | Some p => set_child_phone row (CStr p)
             | None => row
             end) <$> rows,
     (n + length (filter (λ row, is_Some (fill_phone phones row)) rows))%nat).
Proof.
  revert n. induction rows as [|row rows IH]; intros n; [cbn; f_equal; lia|].
  cbn [migrate_rows fmap list_fmap]. rewrite filter_cons.
  destruct (fill_phone phones row) as [p|] eqn:Hp;
    [rewrite decide_True by (by eexists)|rewrite decide_False by (by intros [? [=]])];
    unfold fill_phone in Hp;
    (destruct (Cell.blank (child_phone_number row));
     [destruct (phones !! ch_caregiver_key row) as [cp|];
      [destruct (Cell.truthy cp && Py.truthy (Py.strip (Cell.str cp)))|]|]);
    simplify_eq; rewrite IH; cbn [length]; f_equal; lia.
Qed.

Lemma set_child_phone_same c : c = set_child_phone c (child_phone_number c).
Proof. by destruct c. Qed.

Lemma migrate_rows_phone_only phones rows n c' :
  c' ∈ (migrate_rows phones rows n).1 →
  ∃ c, c ∈ rows ∧ c' = set_child_phone c (child_phone_number c').
Proof.
  rewrite migrate_rows_map. cbn [fst].
  intros (c & -> & Hc)%list_elem_of_fmap. exists c. split; [done|].
  destruct (fill_phone phones c); [done|apply set_child_phone_same].
Qed.

(** X15: a child row that a write hands to [save_data] is a row of the
    loaded table, changed at most in its phone number, or it carries as
    its name a text that is not empty and has no white space around it.
    That text need not be a name: an empty name cell of an import file is
    stored as the text "nan". *)
Theorem apply_op_child_names tables op c :
  c ∈ (apply_op tables op).2 →
  (∃ c0, c0 ∈ tables.2 ∧ c = set_child_phone c0 (child_phone_number c))
  ∨ text_named c.
Proof.
  destruct tables as [cg_df ch_df]. cbn [snd].
  assert (∀ c, c ∈ ch_df →
            ∃ c0, c0 ∈ ch_df ∧ c = set_child_phone c0 (child_phone_number c)) as Hold.
  { intros c1 H1. exists c1. split; [done|apply set_child_phone_same]. }
  destruct op as [u now f|u now sel f user|name|u t rows|t rows|rows|]; cbn [apply_op].
  - destruct (stored_form u now cg_df ch_df f) as [-> | ->]; [by left; apply Hold|].
    rewrite upsert_children. cbv zeta.
    intros [[_ Hc]%list_elem_of_filter | Hc]%elem_of_app; [by left; apply Hold|].
    right. by apply new_child_rows_text_named in Hc.
  - destruct (stored_update u now cg_df ch_df sel f user) as [-> | (cd & r & ->)];
      [by left; apply Hold|].
    rewrite apply_update_children. cbv zeta.
    intros [Hc | Hc]%elem_of_app.
    + left. apply Hold. destruct (_ || _); [|done].
      by apply list_elem_of_filter in Hc as [_ Hc].
    + right. by apply updated_child_rows_text_named in Hc.
  - destruct (stored_delete cg_df ch_df name) as [-> | (key & ->)];
      [by left; apply Hold|].
    cbn [snd]. intros [_ Hc]%list_elem_of_filter. by left; apply Hold.
  - unfold import_caregiver_data. rewrite import_caregiver_rows_children.
    by left; apply Hold.
  - cbn [snd]. unfold import_child_data.
    intros [Hc | Hc]%import_child_rows_text_named; [by left; apply Hold|by right].
  - rewrite stored_excel. by left; apply Hold.
  - rewrite migrate_stored. cbn [snd]. intros Hc. left.
    by apply migrate_rows_phone_only in Hc.
Qed.

Lemma apply_op_child_names_witness :
  let tom :=
    Child "3e2b0de89312" (CStr "Ann") (CStr "Tom") (CStr "") (CStr "111")
          (Some 5) None (CStr "") (CStr "") (CStr "") (CStr "") (CStr "t1") in
  (∃ c0, c0 ∈ ([] : list child) ∧ tom = set_child_phone c0 (child_phone_number tom))
  ∨ text_named tom.
Proof.
  apply (apply_op_child_names ([], [])
           (FormSave Scenario.entropy "t1"
              (Scenario.form "Ann" "111" [Scenario.tom; Scenario.no_cells]))).
  vm_compute. constructor.
Defined.

(** A form save with Tom and an empty editor row, then the migration: the
    one child row stored is Tom's. *)
Example run_ops_names :
  child_name
    <$> (run_ops [FormSave Scenario.entropy "t1"
                    (Scenario.form "Ann" "111" [Scenario.tom; Scenario.no_cells]);
                  Migrate]
                 ([], [])).2
  = [CStr "Tom"].
Proof. by vm_compute. Qed.




(** ** The migration, row by row *)

Lemma caregiver_phones_from (m : gmap string cell) cg_df key :
  foldl (λ m r, <[caregiver_key r := phone_number r]> m) m cg_df !! key
  = match last (filter (λ r, caregiver_key r = key) cg_df) with
    | Some r => Some (phone_number r)
    | None => m !! key
    end.
Proof.
  revert m. induction cg_df as [|r l IH]; intros m; [done|].
  cbn [foldl]. rewrite IH, filter_cons.
  destruct (decide (caregiver_key r = key)) as [<-|Hne].
  - destruct (filter _ l) as [|x l'] eqn:E; [by rewrite lookup_insert_eq|].
    change (last (r :: x :: l')) with (last (x :: l')).
    destruct (last (x :: l')) eqn:El; [done|]. by apply last_None in El.
  - destruct (last _); [done|]. by rewrite lookup_insert_ne.
Qed.

(** X17: the phone dictionary of the migration gives, for every key, the
    phone of the last caregiver row with that key, and nothing for a key
    that no row has. *)
Theorem caregiver_phones_last_row cg_df key :
  caregiver_phones cg_df !! key
  = phone_number <$> last (filter (λ r, caregiver_key r = key) cg_df).
Proof.
  unfold caregiver_phones. rewrite caregiver_phones_from.
  by destruct (last _).
Qed.

(** X18: the migration changes a child row only in its phone, and only when
    that phone was blank: every row with a phone is stored as it was, and
    the returned count is the number of rows that received a phone. *)
Theorem migrate_touches_blank_phones_only cg_df ch_df :
  let '((cg1, ch1), n) := migrate_child_phone_numbers cg_df ch_df in
  cg1 = cg_df
  ∧ Forall2 (λ c c1, (Cell.blank (child_phone_number c) = false → c1 = c)
                     ∧ c1 = set_child_phone c (child_phone_number c1))
            ch_df ch1
  ∧ n = length (filter (λ p, p.1 ≠ p.2) (zip ch_df ch1)).
Proof.
  pose proof (migrate_stored cg_df ch_df) as Hst.
  unfold migrate_child_phone_numbers in *. rewrite migrate_rows_map in *.
  cbn [fst snd] in *.
  set (phones := caregiver_phones cg_df) in *.
  set (step := λ row, match fill_phone phones row with
                      | Some p => set_child_phone row (CStr p)
                      | None => row
                      end) in *.
  assert (Hrel : Forall2 (λ c c1, (Cell.blank (child_phone_number c) = false → c1 = c)
                                  ∧ c1 = set_child_phone c (child_phone_number c1))
                         ch_df (step <$> ch_df)).
  { apply Forall2_fmap_r, Forall_Forall2_diag, Forall_forall. intros c _.
    subst step. unfold compose. cbn beta. unfold fill_phone.
    destruct (Cell.blank (child_phone_number c)); cbv iota.
    2: { split; [done|by destruct c]. }
    split; [done|]. repeat case_match; by destruct c. }
  assert (Hcount : length (filter (λ row, is_Some (fill_phone phones row)) ch_df)
                   = length (filter (λ p, p.1 ≠ p.2) (zip ch_df (step <$> ch_df)))).
  { clear. induction ch_df as [|c l IH]; [done|].
    cbn [fmap list_fmap zip zip_with]. rewrite !filter_cons. cbn [fst snd].
    destruct (decide (is_Some (fill_phone phones c))) as [[p Hp]|Hnone].
    - rewrite decide_True; [cbn [length]; by rewrite IH|].
      subst step. cbn beta. rewrite Hp. unfold fill_phone in Hp.
      destruct (Cell.blank (child_phone_number c)) eqn:Hb; [|done].
      intros Heq. rewrite Heq in Hb. cbn [set_child_phone child_phone_number] in Hb.
      repeat case_match; simplify_eq.
      match goal with H : _ && _ = true |- _ => apply andb_prop in H as [_ H] end.
      by rewrite blank_stripped in Hb.
    - rewrite decide_False; [exact IH|]. intros Hne. apply Hne.
      subst step. cbn beta. destruct (fill_phone phones c); [|done].
      exfalso. apply Hnone. by eexists. }
  destruct (0 <? _)%nat eqn:Hpos; cbn [fst snd] in *.
  - split; [done|]. split; [exact Hrel|]. by rewrite Nat.add_0_l.
  - injection Hst as Hsame. rewrite <- Hsame in Hrel, Hcount.
    split; [done|]. split; [exact Hrel|]. rewrite <- Hcount.
    apply Nat.ltb_ge in Hpos. lia.
Qed.

(** *** The migration run twice on the workbook *)

Lemma read_cell_idem c :
  Workbook.read_cell (Workbook.read_cell c) = Workbook.read_cell c.
Proof.
  destruct c as [| |s]; [done|done|]. cbn [Workbook.read_cell].
  destruct (bool_decide (s ∈ Workbook.na_values)) eqn:E; [done|].
  cbn [Workbook.read_cell]. by rewrite E.
Qed.

Lemma load_caregiver_idem r :
  Workbook.load_caregiver (Workbook.load_caregiver r) = Workbook.load_caregiver r.
Proof. unfold Workbook.load_caregiver. cbn. by rewrite !read_cell_idem. Qed.

Lemma load_child_idem c :
  Workbook.load_child (Workbook.load_child c) = Workbook.load_child c.
Proof. unfold Workbook.load_child. cbn. by rewrite !read_cell_idem. Qed.

(** Reading a workbook that was written from loaded tables gives these
    tables back. *)
Lemma load_data_idem wb :
  Workbook.load_data (Workbook.load_data wb) = Workbook.load_data wb.
Proof.
  unfold Workbook.load_data. cbn [fst snd]. rewrite <- !list_fmap_compose. f_equal.
  - apply list_fmap_ext. intros _ r _. apply load_caregiver_idem.
  - apply list_fmap_ext. intros _ c _. apply load_child_idem.
Qed.

(** Every phone in the dictionary is the phone of a caregiver row. *)
Lemma caregiver_phones_elem cg_df key cp :
  caregiver_phones cg_df !! key = Some cp →
  ∃ r, r ∈ cg_df ∧ phone_number r = cp.
Proof.
  unfold caregiver_phones. rewrite caregiver_phones_from, lookup_empty.
  destruct (last _) as [r|] eqn:E; [|done]. intros [= <-].
  exists r. split; [|done].
  by apply last_Some_elem_of, list_elem_of_filter in E as [_ ?].
Qed.

(** A row that the migration has passed, written and read back, is not
    filled again as long as the phones it copies survive the reading. *)
Lemma fill_phone_after_load phones c :
  (∀ k cp, phones !! k = Some cp → Workbook.phone_survives cp = true) →
  fill_phone phones
    (Workbook.load_child
       (match fill_phone phones (Workbook.load_child c) with
        | Some p => set_child_phone (Workbook.load_child c) (CStr p)
        | None => Workbook.load_child c
        end))
  = None.
Proof.
  intros Hs.
  destruct (fill_phone phones (Workbook.load_child c)) as [p|] eqn:Hp;
    [|by rewrite load_child_idem].
  unfold fill_phone in Hp.
  destruct (Cell.blank (child_phone_number (Workbook.load_child c))); [|done].
  destruct (phones !! ch_caregiver_key (Workbook.load_child c)) as [cp|] eqn:Hl;
    [|done].
  destruct (Cell.truthy cp && Py.truthy (Py.strip (Cell.str cp))) eqn:Ht; [|done].
  injection Hp as <-. specialize (Hs _ _ Hl). unfold Workbook.phone_survives in Hs.
  rewrite Ht in Hs. cbn [negb orb] in Hs. apply negb_true_iff in Hs.
  apply andb_prop in Ht as [_ Ht].
  unfold fill_phone.
  cbn [Workbook.load_child set_child_phone child_phone_number Workbook.read_cell].
  rewrite Hs. by rewrite (blank_stripped _ Ht).
Qed.

(** X19: when every caregiver phone read from the workbook is one the
    migration leaves alone (none, or blank text) or text that, trimmed, is
    not a marker of a missing value, a second call of the migration on the
    workbook the first call left returns 0 and leaves the workbook as it
    is.  A caregiver whose phone cell is empty is outside this: NaN is
    copied as the text "nan". *)
Theorem migrate_again_finds_nothing wb :
  Forall (λ r, Workbook.phone_survives (phone_number r) = true)
         (Workbook.load_data wb).1 →
  Workbook.migrate_child_phone_numbers (Workbook.migrate_child_phone_numbers wb).1
  = ((Workbook.migrate_child_phone_numbers wb).1, 0%nat).
Proof.
  intros Hall.
  assert (∀ k cp, caregiver_phones (Workbook.load_data wb).1 !! k = Some cp →
                  Workbook.phone_survives cp = true) as Hs.
  { intros k cp (r & Hr & <-)%caregiver_phones_elem.
    rewrite Forall_forall in Hall. by apply Hall. }
  clear Hall.
  unfold Workbook.migrate_child_phone_numbers at 2 3.
  destruct (Workbook.load_data wb) as [cg_df ch_df] eqn:Hload. cbn [fst] in Hs.
  assert (Workbook.load_data (cg_df, ch_df) = (cg_df, ch_df)) as Hidem
    by (rewrite <- Hload; apply load_data_idem).
  assert (ch_df = Workbook.load_child <$> ch_df) as Hch
    by (injection Hidem as _ H; by rewrite H).
  unfold migrate_child_phone_numbers. rewrite migrate_rows_map.
  set (phones := caregiver_phones cg_df) in *.
  set (step := λ row, match fill_phone phones row with
                      | Some p => set_child_phone row (CStr p)
                      | None => row
                      end).
  destruct (0 <? 0 + length (filter (λ row, is_Some (fill_phone phones row)) ch_df))%nat
    eqn:Hpos; rewrite ?Hpos; cbn [fst].
  - unfold Workbook.migrate_child_phone_numbers.
    assert (Workbook.load_data (cg_df, step <$> ch_df)
            = (cg_df, Workbook.load_child <$> (step <$> ch_df))) as ->.
    { unfold Workbook.load_data in *. cbn [fst snd] in *. f_equal.
      by injection Hidem as -> _. }
    unfold migrate_child_phone_numbers. rewrite migrate_rows_map. fold phones.
    rewrite (filter_none _ (Workbook.load_child <$> (step <$> ch_df))); [done|].
    rewrite Hch. rewrite <- !list_fmap_compose.
    apply Forall_fmap, Forall_forall. intros c _. unfold compose. subst step. cbn beta.
    rewrite (fill_phone_after_load phones c Hs). by intros [? [=]].
  - change (0 <? 0)%nat with false. cbv iota. cbn [fst].
    unfold Workbook.migrate_child_phone_numbers. rewrite Hload.
    unfold migrate_child_phone_numbers. rewrite migrate_rows_map. fold phones.
    by rewrite Hpos.
Qed.

Lemma migrate_again_finds_nothing_witness :
  (Workbook.migrate_child_phone_numbers Scenario.legacy_workbook).2 = 1%nat
  ∧ Workbook.migrate_child_phone_numbers
      (Workbook.migrate_child_phone_numbers Scenario.legacy_workbook).1
    = ((Workbook.migrate_child_phone_numbers Scenario.legacy_workbook).1, 0%nat).
Proof.
  split; [reflexivity|].
  apply (migrate_again_finds_nothing Scenario.legacy_workbook).
  repeat constructor.
Defined.

(** In that workbook the first call gives Tom his caregiver's phone and
    leaves Sam's. *)
Example migrate_legacy_workbook :
  let '(wb1, n1) := Workbook.migrate_child_phone_numbers Scenario.legacy_workbook in
  phone_number <$> (Workbook.load_data Scenario.legacy_workbook).1
  = [CStr "0803-111-2222"]
  ∧ child_phone_number <$> (Workbook.load_data Scenario.legacy_workbook).2
    = [CNaN; CStr "0805-000-1111"]
  ∧ n1 = 1%nat
  ∧ child_phone_number <$> wb1.2 = [CStr "0803-111-2222"; CStr "0805-000-1111"].
Proof. by vm_compute. Qed.

(** ** Uploading unverified names *)

Section Upload.
Import Unverified.







Lemma collect_new_records_shape clock now file_name df names i :
  Forall (λ r, status_of r = pending
               ∧ verified_date r = None ∧ verified_by r = None
               ∧ upload_date r = now
               ∧ Py.strip (name r) = name r ∧ Py.truthy (name r) = true
               ∧ name_exists df (name r) = false)
         (collect_new_records clock now file_name df i names).
Proof.
  revert i. induction names as [|n names IH]; intros i; [constructor|].
  cbn [collect_new_records].
  destruct (Py.truthy n && Py.truthy (Py.strip n)) eqn:Hv; [|apply IH].
  destruct (name_exists df (Py.strip n)) eqn:He; [apply IH|].
  constructor; [|apply IH]. apply andb_prop in Hv as [_ Hv].
  cbn [status_of verified_date verified_by upload_date name].
  by rewrite strip_idem.
Qed.

(** X21: an upload keeps every stored record, in place and unchanged, and
    appends the new ones; each new record is pending, has no verification
    date or verifier, carries the upload's timestamp and a trimmed,
    non-empty name, and that name is, up to case, the name of no record
    that was stored before; the reported count is the number appended. *)
Theorem upload_appends_pending clock now file_name df column :
  ∃ added,
    add_to_unverified_list clock now file_name df column = (df ++ added, length added)
    ∧ Forall (λ r, status_of r = pending
                   ∧ verified_date r = None ∧ verified_by r = None
                   ∧ upload_date r = now
                   ∧ Py.strip (name r) = name r ∧ Py.truthy (name r) = true
                   ∧ name_exists df (name r) = false)
             added.
Proof.
  exists (collect_new_records clock now file_name df 0 (names_preview column)).
  split; [|apply collect_new_records_shape].
  unfold add_to_unverified_list.
  destruct (collect_new_records _ _ _ _ _ _); [by rewrite app_nil_r|done].
Qed.

(** ** Saving the editor of the manage tab *)

Lemma save_row_ids df row :
  unverified_id <$>
    match list_find (λ r, unverified_id r = unverified_id row) df with
    | Some (original_idx, _) => <[original_idx := row]> df
    | None => df
    end
  = unverified_id <$> df.
Proof.
  destruct (list_find _ df) as [[i r]|] eqn:Hf; [|done].
  apply list_find_Some in Hf as (Hi & Hid & _).
  rewrite list_fmap_insert. apply list_insert_id.
  by rewrite list_lookup_fmap, Hi, <- Hid.
Qed.

(** X22: "Save Changes" neither adds nor removes a record and moves no id:
    the ids of the stored collection are the same, in the same order,
    whatever rows the editor hands back; a row whose id is unknown is
    ignored. *)
Theorem save_changes_keeps_ids df edited_df :
  unverified_id <$> save_changes df edited_df = unverified_id <$> df.
Proof.
  unfold save_changes. revert df.
  induction edited_df as [|row rows IH]; intros df; [done|].
  cbn [foldl]. by rewrite IH, save_row_ids.
Qed.

(** X23: with distinct ids, saving editor rows that were not edited changes
    nothing. *)
Theorem save_changes_unedited df edited_df :
  NoDup (unverified_id <$> df) →
  edited_df ⊆ df →
  save_changes df edited_df = df.
Proof.
  intros Hnd Hsub. unfold save_changes.
  induction edited_df as [|row rows IH]; [done|]. cbn [foldl].
  assert (row ∈ df) as Hrow by (apply Hsub, list_elem_of_here).
  assert (rows ⊆ df) as Hrows by (intros x Hx; by apply Hsub, list_elem_of_further).
  destruct (list_find (λ r, unverified_id r = unverified_id row) df)
    as [[i r]|] eqn:Hf; [|by apply IH].
  apply list_find_Some in Hf as (Hi & Hid & _).
  apply list_elem_of_lookup in Hrow as [j Hj].
  assert (i = j) as ->.
  { apply (NoDup_lookup (unverified_id <$> df) i j (unverified_id row)); [done| |].
    - by rewrite list_lookup_fmap, Hi, <- Hid.
    - by rewrite list_lookup_fmap, Hj. }
  rewrite list_insert_id by done. by apply IH.
Qed.

Lemma save_changes_unedited_witness :
  save_changes [Scenario.verified_row; Scenario.pending_row] [Scenario.pending_row]
  = [Scenario.verified_row; Scenario.pending_row].
Proof.
  apply (save_changes_unedited [Scenario.verified_row; Scenario.pending_row]
           [Scenario.pending_row]).
  - cbn. apply NoDup_cons. split; [|apply NoDup_singleton].
    by intros [=]%list_elem_of_singleton.
  - intros x ->%list_elem_of_singleton. apply list_elem_of_further, list_elem_of_here.
Defined.

End Upload.

(** ** The manage tab: bulk actions and statistics *)

Section ManageTab.
Import Unverified Manage.

(** X24: after "Delete All Filtered" no stored record matches the filter,
    the records kept and the records that matched add up to the collection,
    and with the status filter on "All" and no search term the collection
    is emptied. *)
Theorem delete_all_filtered_removes_shown status_filter search df :
  filter (λ r, filtered status_filter search r = true)
         (delete_all_filtered status_filter search df) = []
  ∧ length df
    = (length (delete_all_filtered status_filter search df)
       + length (filter (λ r, filtered status_filter search r = true) df))%nat
  ∧ delete_all_filtered None (λ _, true) df = [].
Proof.
  unfold delete_all_filtered. split; [|split].
  - apply filter_none, Forall_forall.
    intros r [Hr _]%list_elem_of_filter. by rewrite Hr.
  - induction df as [|r l IH]; [done|]. rewrite !filter_cons.
    destruct (filtered status_filter search r).
    + rewrite decide_False, decide_True by done. cbn [length]. lia.
    + rewrite decide_True, decide_False by done. cbn [length]. lia.
  - by apply filter_none, Forall_forall.
Qed.

Lemma status_count_cons s r l :
  status_count s (r :: l)
  = ((if bool_decide (status_of r = s) then 1 else 0) + status_count s l)%nat.
Proof.
  unfold status_count. rewrite filter_cons. by case_bool_decide; case_decide.
Qed.

(** X25: the sidebar statistics add up: the total is the number of stored
    records and equals the pending, verified and rejected counts
    together. *)
Theorem get_unverified_stats_add_up df :
  let s := get_unverified_stats df in
  total s = length df ∧ total s = (pending s + verified s + rejected s)%nat.
Proof.
  cbv zeta. assert (length df = (status_count Unverified.pending df
                                  + status_count Unverified.verified df
                                  + status_count Unverified.rejected df)%nat) as H.
  { induction df as [|r l IH]; [done|]. rewrite !status_count_cons. cbn [length].
    destruct (status_of r); repeat case_bool_decide; try done; lia. }
  destruct df as [|r l]; [done|]. cbn [get_unverified_stats total pending verified rejected].
  by rewrite <- H.
Qed.

Lemma mark_count s now df :
  status_count s (mark_all_filtered Unverified.verified (Some Unverified.pending)
                    (λ _, true) now df)
  = match s with
    | Unverified.pending => 0
    | Unverified.verified =>
        status_count Unverified.verified df + status_count Unverified.pending df
    | Unverified.rejected => status_count Unverified.rejected df
    end%nat.
Proof.
  unfold mark_all_filtered. induction df as [|r l IH]; [by destruct s|].
  cbn [fmap list_fmap]. rewrite !status_count_cons, IH. unfold filtered.
  rewrite andb_true_r.
  destruct (status_of r) eqn:Hr, s; cbn [decide_row status_of];
    repeat case_bool_decide; try done; try congruence; lia.
Qed.

(** X26: with the status filter on [pending] and no search term, "Mark All
    Filtered as Verified" leaves no pending record: in the statistics the
    total is the same, pending is 0, verified has grown by the former
    pending count and rejected is unchanged. *)
Theorem bulk_verify_clears_pending now df :
  let before := get_unverified_stats df in
  let after :=
    get_unverified_stats
      (mark_all_filtered Unverified.verified (Some Unverified.pending) (λ _, true)
                         now df) in
  total after = total before
  ∧ pending after = 0%nat
  ∧ verified after = (verified before + pending before)%nat
  ∧ rejected after = rejected before.
Proof.
  cbv zeta. destruct df as [|r l]; [done|].
  set (df := r :: l).
  assert (mark_all_filtered Unverified.verified (Some Unverified.pending)
            (λ _, true) now df ≠ []) as Hne by done.
  unfold get_unverified_stats.
  destruct (mark_all_filtered _ _ _ now df) as [|r' l'] eqn:E; [done|].
  rewrite <- E. subst df. cbn [total pending verified rejected].
  rewrite !mark_count. unfold mark_all_filtered. by rewrite length_fmap.
Qed.

End ManageTab.

(** ** Ages *)

(** X27: the age [calculate_age] returns for a date of birth is negative
    exactly when the date of birth lies after today. *)
Theorem calculate_age_sign today dob :
  match calculate_age today (Some dob) with
  | Some a => 0 ≤ a ↔ date_le dob today
  | None => False
  end.
Proof.
  unfold calculate_age, tuple_lt, date_le. cbn [fst snd].
  destruct (month today <? month dob) eqn:Hm; cbn [orb].
  - apply Z.ltb_lt in Hm. lia.
  - apply Z.ltb_ge in Hm.
    destruct (month today =? month dob) eqn:He; cbn [andb].
    + apply Z.eqb_eq in He. destruct (day today <? day dob) eqn:Hd.
      * apply Z.ltb_lt in Hd. lia.
      * apply Z.ltb_ge in Hd. lia.
    + apply Z.eqb_neq in He. lia.
Qed.

(** X28: the form component's [_calculate_age] and app.py's [calculate_age]
    give the same age for every date of birth; without a date of birth the
    first gives 0 where the second gives [None]. *)
Theorem calculate_age_agree today dob :
  Forms._calculate_age today dob = default 0 (calculate_age today dob).
Proof.
  destruct dob as [dob|]; [|done].
  unfold Forms._calculate_age, calculate_age, tuple_lt. cbn [fst snd default from_option id].
  destruct (_ || _); unfold id; lia.
Qed.

(** ** Search and filter *)

Lemma filter_if_elem {A} (active : bool) (mask : A → bool) (df : list A) x :
  x ∈ filter_if active mask df → x ∈ df ∧ (active = true → mask x = true).
Proof.
  unfold filter_if. destruct active; [|done].
  intros [? ?]%list_elem_of_filter. done.
Qed.

Lemma filter_if_sublist {A} (active : bool) (mask : A → bool) (df : list A) :
  (filter_if active mask df) `sublist_of` df.
Proof. unfold filter_if. destruct active; [apply sublist_filter|done]. Qed.

Lemma unknown_not_offered :
  ("Unknown" ∉ cg_age_groups) ∧ ("Unknown" ∉ ch_age_groups).
Proof.
  split; unfold cg_age_groups, ch_age_groups;
    rewrite !not_elem_of_cons; repeat split; try discriminate; apply not_elem_of_nil.
Qed.

(** With no search term and nothing chosen, both filters show the whole
    table. *)
Lemma filters_off matches cg_df ch_df :
  apply_caregiver_filters matches "" (CaregiverFilters [] [] [] []) cg_df = cg_df
  ∧ apply_children_filters matches "" (ChildrenFilters [] [] [] []) ch_df = ch_df.
Proof. done. Qed.

(** X29: the caregiver filter only hides rows, keeping the order of the
    table, and once an age group is chosen among the groups offered every
    row shown has an age, of a chosen group: caregivers without an age are
    hidden. *)
Theorem apply_caregiver_filters_shows matches search_term w df :
  chosen (cg_age_filter w) = true →
  cg_age_filter w ⊆ cg_age_groups →
  (apply_caregiver_filters matches search_term w df) `sublist_of` df
  ∧ ∀ r, r ∈ apply_caregiver_filters matches search_term w df →
         is_Some (age r) ∧ get_age_group (age r) ∈ cg_age_filter w.
Proof.
  intros Hchosen Hoffered. unfold apply_caregiver_filters. cbv zeta. split.
  - repeat (etrans; [apply filter_if_sublist|]). done.
  - intros r Hr.
    apply filter_if_elem in Hr as [Hr _]. apply filter_if_elem in Hr as [Hr _].
    apply filter_if_elem in Hr as [_ Hage]. specialize (Hage Hchosen).
    apply bool_decide_eq_true in Hage. split; [|done].
    destruct (age r); [by eexists|]. cbn in Hage.
    apply Hoffered in Hage. by destruct unknown_not_offered.
Qed.

Lemma apply_caregiver_filters_shows_witness :
  let w := CaregiverFilters [] ["18-29"] [] [] in
  (apply_caregiver_filters (λ _ _, true) "" w Scenario.after_bob.1)
    `sublist_of` Scenario.after_bob.1
  ∧ ∀ r, r ∈ apply_caregiver_filters (λ _ _, true) "" w Scenario.after_bob.1 →
         is_Some (age r) ∧ get_age_group (age r) ∈ cg_age_filter w.
Proof.
  apply (apply_caregiver_filters_shows (λ _ _, true) ""
           (CaregiverFilters [] ["18-29"] [] []) Scenario.after_bob.1).
  - reflexivity.
  - intros x ->%list_elem_of_singleton. apply list_elem_of_further, list_elem_of_here.
Defined.

(** X30: the children filter behaves the same way: it only hides rows, and
    with an age group chosen among the groups offered it shows only
    children that have an age, of a chosen group. *)
Theorem apply_children_filters_shows matches search_term w df :
  chosen (ch_age_filter w) = true →
  ch_age_filter w ⊆ ch_age_groups →
  (apply_children_filters matches search_term w df) `sublist_of` df
  ∧ ∀ c, c ∈ apply_children_filters matches search_term w df →
         is_Some (child_age c)
         ∧ get_child_age_group (child_age c) ∈ ch_age_filter w.
Proof.
  intros Hchosen Hoffered. unfold apply_children_filters. cbv zeta. split.
  - repeat (etrans; [apply filter_if_sublist|]). done.
  - intros c Hc.
    apply filter_if_elem in Hc as [Hc _]. apply filter_if_elem in Hc as [Hc _].
    apply filter_if_elem in Hc as [_ Hage]. specialize (Hage Hchosen).
    apply bool_decide_eq_true in Hage. split; [|done].
    destruct (child_age c); [by eexists|]. cbn in Hage.
    apply Hoffered in Hage. by destruct unknown_not_offered.
Qed.

Lemma apply_children_filters_shows_witness :
  let w := ChildrenFilters [] ["0-5"] [] [] in
  (apply_children_filters (λ _ _, true) "" w Scenario.after_bob.2)
    `sublist_of` Scenario.after_bob.2
  ∧ ∀ c, c ∈ apply_children_filters (λ _ _, true) "" w Scenario.after_bob.2 →
         is_Some (child_age c)
         ∧ get_child_age_group (child_age c) ∈ ch_age_filter w.
Proof.
  apply (apply_children_filters_shows (λ _ _, true) ""
           (ChildrenFilters [] ["0-5"] [] []) Scenario.after_bob.2).
  - reflexivity.
  - intros x ->%list_elem_of_singleton. apply list_elem_of_here.
Defined.
